(** * bot.py: swap construction and sequencing, shallowly embedded

    The development follows [src/bot.py].

    - Python [int] is [Z].  Python [float] is a binary64 value kept as a
      mantissa and a binary exponent: [Fin m e] stands for [m * 2^e].
      Every float operation is the exact rational result rounded to the
      nearest binary64, ties to even, which is what IEEE 754 prescribes and
      what CPython does for [float * float], for [int / int] and for
      [format(x, ".4f")].  The sign of zero is not kept: no printed value
      of the program depends on it.
    - [random] and [time.time] are oracles of the [World]: a sequence of raw
      draws and a sequence of clock readings, consumed in program order.
      [randint] and [getrandbits] reduce a raw draw to their range, so
      every value of the range is the outcome in some world.
    - Every call made on the [web3], contract and account objects is
      appended to the world's [calls] log with its arguments and its result,
      at the moment it returns; the log is ghost state, what a recording
      client would observe.
    - A Python exception is a [Raise] result; the log written before it is
      kept. *)

From Stdlib Require Import ZArith QArith Qround Qabs Qpower Lia Lqa.
From Stdlib Require Import Bool List Ascii String Strings.Byte DecimalString.
From Stdlib Require SpecFloat.
Import ListNotations.

Open Scope Z_scope.

(* ================================================================== *)
(** ** Python floats *)

Inductive float : Type :=
| Fin (m e : Z)
| Inf (neg : bool)
| NaN.

Definition pow2 (e : Z) : Q := (2 ^ e)%Q.

(** The rational denoted by a finite float. *)
Definition F2Q (m e : Z) : Q := (inject_Z m * pow2 e)%Q.

(** Membership in binary64: 53-bit mantissa, exponent of the last place
    between -1074 and 971. *)
Definition binary64 (f : float) : bool :=
  match f with
  | Fin m e => (Z.abs m <? 2 ^ 53) && (-1074 <=? e) && (e <=? 971)
  | _ => true
  end.

(** Nearest integer, ties to the even one. *)
Definition rne (y : Q) : Z :=
  let f := Qfloor y in
  match (y - inject_Z f ?= 1 # 2)%Q with
  | Lt => f
  | Gt => f + 1
  | Eq => if Z.even f then f else f + 1
  end.

(** [floor (log2 x)] for a positive rational. *)
Definition ilog2 (x : Q) : Z :=
  let k := Z.log2 (Qnum x) - Z.log2 (Zpos (Qden x)) in
  if Qle_bool (pow2 k) x then k else k - 1.

(** Mantissa and exponent of the binary64 nearest to a positive rational,
    before the overflow test: 53 significant bits, or a last place of
    2^-1074 in the subnormal range. *)
Definition round_pos (x : Q) : Z * Z :=
  let e := Z.max (ilog2 x - 52) (-1074) in
  (rne (x * pow2 (- e)), e).

Definition overflows (m e : Z) : bool := Qle_bool (pow2 1024) (F2Q m e).

(** Round to nearest binary64, ties to even; beyond the largest finite value
    the result is an infinity. *)
Definition fround (x : Q) : float :=
  match (x ?= 0)%Q with
  | Eq => Fin 0 0
  | Gt => let '(m, e) := round_pos x in
          if overflows m e then Inf false else Fin m e
  | Lt => let '(m, e) := round_pos (- x) in
          if overflows m e then Inf true else Fin (- m) e
  end.

(** Python exceptions the modelled code can raise. *)
Inductive exn : Type :=
| OverflowError
| ValueError
| ZeroDivisionError
| TypeError.

Inductive Result (A : Type) : Type :=
| Ok (a : A)
| Raise (x : exn).
Arguments Ok {A} a.
Arguments Raise {A} x.

Definition rbind {A B : Type} (r : Result A) (k : A -> Result B) : Result B :=
  match r with
  | Ok a => k a
  | Raise x => Raise x
  end.

(** [float(n)] for an int [n]. *)
Definition float_of_int (n : Z) : Result float :=
  match fround (inject_Z n) with
  | Inf _ => Raise OverflowError
  | f => Ok f
  end.

(** [x * y] on floats. *)
Definition fmul (x y : float) : float :=
  match x, y with
  | NaN, _ | _, NaN => NaN
  | Inf s, Inf t => Inf (xorb s t)
  | Inf s, Fin m _ | Fin m _, Inf s =>
      if m =? 0 then NaN else Inf (xorb s (m <? 0))
  | Fin m1 e1, Fin m2 e2 => fround (F2Q m1 e1 * F2Q m2 e2)
  end.

(** [x * n] for a float [x] and an int [n]: the int is converted first. *)
Definition fmul_int (x : float) (n : Z) : Result float :=
  rbind (float_of_int n) (fun y => Ok (fmul x y)).

(** Truncation toward zero of a finite float. *)
Definition trunc (m e : Z) : Z :=
  if 0 <=? e then m * 2 ^ e else Z.quot m (2 ^ (- e)).

(** [int(x)] for a float [x]. *)
Definition py_int (x : float) : Result Z :=
  match x with
  | Fin m e => Ok (trunc m e)
  | Inf _ => Raise OverflowError
  | NaN => Raise ValueError
  end.

(** [a / b] on ints: the correctly rounded quotient. *)
Definition py_truediv (a b : Z) : Result float :=
  if b =? 0 then Raise ZeroDivisionError
  else match fround (inject_Z a / inject_Z b) with
       | Inf _ => Raise OverflowError
       | f => Ok f
       end.

(** The magnitude printed by ["{:.4f}"], in units of 10^-4. *)
Definition round4 (m e : Z) : Z := rne (Qabs (F2Q m e) * 10000).

Definition digit (d : Z) : ascii := ascii_of_nat (48 + Z.to_nat d).

Definition frac4 (k : Z) : string :=
  String (digit (k / 1000 mod 10))
    (String (digit (k / 100 mod 10))
       (String (digit (k / 10 mod 10))
          (String (digit (k mod 10)) EmptyString))).

(** [str(z)] for an int. *)
Definition str_int (z : Z) : string := NilZero.string_of_int (Z.to_int z).

(** [format(x, ".4f")]. *)
Definition format_4f (x : float) : string :=
  match x with
  | Fin m e =>
      let n := round4 m e in
      ((if (m <? 0)%Z then "-" else "") ++ str_int (n / 10000)%Z ++ "."
         ++ frac4 (n mod 10000)%Z)%string
  | Inf neg => if neg then "-inf"%string else "inf"%string
  | NaN => "nan"%string
  end.

(* ================================================================== *)
(** ** Dictionaries, the world and the effect monad *)

Inductive Val : Type :=
| VNone
| VInt (z : Z)
| VStr (s : string).

Definition dict : Type := list (string * Val).

(** [d.get(k, dflt)]. *)
Fixpoint dict_get (d : dict) (k : string) (dflt : Val) : Val :=
  match d with
  | [] => dflt
  | (k', v) :: d' => if String.eqb k k' then v else dict_get d' k dflt
  end.

(** [d[k] = v]. *)
Fixpoint dict_set (d : dict) (k : string) (v : Val) : dict :=
  match d with
  | [] => [(k, v)]
  | (k', v') :: d' =>
      if String.eqb k k' then (k', v) :: d' else (k', v') :: dict_set d' k v
  end.

(** [d.update(u)]. *)
Definition dict_update (d u : dict) : dict :=
  fold_left (fun acc kv => dict_set acc (fst kv) (snd kv)) u d.

Inductive Event : Type :=
| EvCall (fn : string) (result : Val)
| EvGetBlock (timestamp : Z)
| EvGetTransactionCount (address : string) (count : Z)
| EvApprove (spender : string) (value : Z)
| EvSwapExactETHForTokens
    (amountOutMin : Z) (path : list string) (to : string) (deadline : Z)
| EvSwapExactTokensForETH
    (amountIn amountOutMin : Z) (path : list string) (to : string)
    (deadline : Z)
| EvBuildTransaction (fn : string) (tx : dict)
| EvSignTransaction (tx : dict)
| EvSendRawTransaction (raw : list byte) (tx_hash : list byte).

Record World : Type := mkWorld {
  rng : nat -> Z;        (* raw draws of the [random] module *)
  rng_next : nat;
  clock : nat -> Z;      (* successive values of [int(time.time())] *)
  clock_next : nat;
  calls : list Event     (* oldest first *)
}.

Definition M (A : Type) : Type := World -> Result A * World.

Definition ret {A : Type} (a : A) : M A := fun w => (Ok a, w).

Definition bind {A B : Type} (c : M A) (k : A -> M B) : M B :=
  fun w =>
    match c w with
    | (Ok a, w') => k a w'
    | (Raise x, w') => (Raise x, w')
    end.

Definition lift {A : Type} (r : Result A) : M A := fun w => (r, w).

Notation "x <- c ;; k" := (bind c (fun x => k))
  (at level 61, c at next level, right associativity).
Notation "c ;;; k" := (bind c (fun _ => k))
  (at level 61, right associativity).

Definition draw : M Z :=
  fun w =>
    (Ok (rng w (rng_next w)),
     mkWorld (rng w) (S (rng_next w)) (clock w) (clock_next w) (calls w)).

(** [random.getrandbits(k)]: a negative [k] raises [ValueError] before
    anything is drawn; [k = 0] gives 0. *)
Definition getrandbits (k : Z) : M Z :=
  if k <? 0 then lift (Raise ValueError)
  else r <- draw ;; ret (r mod 2 ^ k).

(** [random.randint(a, b)]. *)
Definition randint (a b : Z) : M Z :=
  r <- draw ;; ret (a + r mod (b - a + 1)).

Definition record (ev : Event) : M unit :=
  fun w =>
    (Ok tt,
     mkWorld (rng w) (rng_next w) (clock w) (clock_next w) (calls w ++ [ev])).

(* ================================================================== *)
(** ** Lightweight helpers *)

Definition hex_digit (d : Z) : ascii :=
  nth (Z.to_nat d)
    ["0"; "1"; "2"; "3"; "4"; "5"; "6"; "7"; "8"; "9";
     "a"; "b"; "c"; "d"; "e"; "f"]%char "0"%char.

(** [format(n, "x")] for [n >= 0]: the hexadecimal digits, most significant
    first, without leading zeros; [fuel] bounds the number of digits. *)
Fixpoint format_x_aux (fuel : nat) (n : Z) (acc : string) : string :=
  match fuel with
  | O => acc
  | S f =>
      let acc' := String (hex_digit (n mod 16)) acc in
      if n / 16 =? 0 then acc' else format_x_aux f (n / 16) acc'
  end.

(** [format(n, "x")]. *)
Definition format_x (n : Z) : string :=
  if n <? 0 then
    ("-" ++ format_x_aux (S (Z.to_nat (Z.log2 (- n)))) (- n) "")%string
  else format_x_aux (S (Z.to_nat (Z.log2 n))) n "".

Fixpoint repeat_char (c : ascii) (k : nat) : string :=
  match k with
  | O => EmptyString
  | S k' => String c (repeat_char c k')
  end.

(** [s.rjust(w, c)]. *)
Definition rjust (w : nat) (c : ascii) (s : string) : string :=
  (repeat_char c (w - String.length s) ++ s)%string.

(** [_fast_hex(n_bytes)] (line 9); a width that is not positive pads
    nothing. *)
Definition _fast_hex (n_bytes : Z) : M string :=
  r <- getrandbits (n_bytes * 8) ;;
  ret ("0x" ++ rjust (Z.to_nat (n_bytes * 2)) "0" (format_x r))%string.

Definition _now_ts : M Z :=
  fun w =>
    (Ok (clock w (clock_next w)),
     mkWorld (rng w) (rng_next w) (clock w) (S (clock_next w)) (calls w)).

(** [_to_wei(val, unit)], for [val] already a float ([float(val)] is the
    identity on floats, and [float("5")] is [5.0]). *)
Definition _to_wei (val : float) (unit : string) : Result Z :=
  if String.eqb unit "ether" then
    rbind (fmul_int val (10 ^ 18)) py_int
  else if String.eqb unit "gwei" then
    rbind (fmul_int val (10 ^ 9)) py_int
  else py_int val.

(* ================================================================== *)
(** ** Dummy web3 / account simulation classes *)

(** [DummyEth.get_block(arg)["timestamp"]]. *)
Definition get_block_timestamp : M Z :=
  now <- _now_ts ;;
  record (EvGetBlock now) ;;;
  ret now.

(** [DummyEth.get_transaction_count(address)]. *)
Definition get_transaction_count (address : string) : M Z :=
  n <- randint 0 20 ;;
  record (EvGetTransactionCount address n) ;;;
  ret n.

(** Hexadecimal digit value, as [bytes.fromhex] reads it. *)
Definition hex_val (c : ascii) : option Z :=
  let n := Z.of_nat (nat_of_ascii c) in
  if (48 <=? n) && (n <=? 57) then Some (n - 48)
  else if (97 <=? n) && (n <=? 102) then Some (n - 87)
  else if (65 <=? n) && (n <=? 70) then Some (n - 55)
  else None.

Definition byte_of_Z (z : Z) : byte := byte_of_ascii (ascii_of_N (Z.to_N z)).

(** [bytes.fromhex(s)], for a string without white space. *)
Fixpoint bytes_fromhex (s : string) : Result (list byte) :=
  match s with
  | EmptyString => Ok []
  | String h (String l s') =>
      match hex_val h, hex_val l with
      | Some a, Some b =>
          rbind (bytes_fromhex s') (fun t => Ok (byte_of_Z (16 * a + b) :: t))
      | _, _ => Raise ValueError
      end
  | String _ EmptyString => Raise ValueError
  end.

(** [b.hex()]. *)
Fixpoint bytes_hex (b : list byte) : string :=
  match b with
  | [] => EmptyString
  | x :: b' =>
      let n := Z.of_N (Byte.to_N x) in
      String (hex_digit (n / 16)) (String (hex_digit (n mod 16)) (bytes_hex b'))
  end.

(** [s[2:]]. *)
Definition drop2 (s : string) : string :=
  match s with
  | String _ (String _ s') => s'
  | _ => EmptyString
  end.

(** [DummyEth.send_raw_transaction(raw)]. *)
Definition send_raw_transaction (raw : list byte) : M (list byte) :=
  hx <- _fast_hex 8 ;;
  h <- lift (bytes_fromhex (drop2 hx)) ;;
  record (EvSendRawTransaction raw h) ;;;
  ret h.

(** [DummyWeb3.to_hex(b)] for a bytes object. *)
Definition to_hex (b : list byte) : string := ("0x" ++ bytes_hex b)%string.

(** [DummyWeb3.to_checksum_address(a)]. *)
Definition to_checksum_address (a : string) : string := a.

(** [DummyAccount.sign_transaction(tx).rawTransaction]. *)
Definition sign_transaction (tx : dict) : M (list byte) :=
  record (EvSignTransaction tx) ;;;
  ret (list_byte_of_string "dummy_tx").

Record DummyFunction : Type := mkDummyFunction {
  name : string;
  return_val : Val;
  build_template : option dict
}.

(** Python truth value, for [self.return_val or 0]. *)
Definition truthy (v : Val) : bool :=
  match v with
  | VNone => false
  | VInt z => negb (z =? 0)
  | VStr s => negb (String.eqb s "")
  end.

(** [DummyFunction.call()]. *)
Definition call (f : DummyFunction) : M Val :=
  r <- (if String.eqb (name f) "balanceOf" then
          n <- randint 1 (10 ^ 18) ;; ret (VInt n)
        else if String.eqb (name f) "decimals" then ret (VInt 18)
        else if String.eqb (name f) "symbol" then ret (VStr "TOK")
        else ret (if truthy (return_val f) then return_val f else VInt 0)) ;;
  record (EvCall (name f) r) ;;;
  ret r.

(** [DummyFunction.build_transaction(txdict)]. *)
Definition build_transaction (f : DummyFunction) (txdict : dict) : M dict :=
  let tx :=
    [("from", dict_get txdict "from" VNone);
     ("to", dict_get txdict "to" (VStr "0xDummy"));
     ("value", dict_get txdict "value" (VInt 0));
     ("gas", dict_get txdict "gas" VNone);
     ("gasPrice", dict_get txdict "gasPrice" VNone);
     ("nonce", dict_get txdict "nonce" VNone);
     ("data", VStr "<dummy_data>")]%string in
  let tx :=
    match build_template f with
    | Some t => dict_update tx t
    | None => tx
    end in
  record (EvBuildTransaction (name f) tx) ;;;
  ret tx.

(** A [DummyContract]; its [abi] is stored and never read. *)
Record DummyContract : Type := mkDummyContract { address : string }.

(** [DummyEth.contract(address, abi)]. *)
Definition contract (a : string) : DummyContract :=
  mkDummyContract (if String.eqb a "" then "0xDummyContract"%string else a).

Definition balanceOf (c : DummyContract) (addr : string) : DummyFunction :=
  mkDummyFunction "balanceOf" VNone None.

Definition decimals (c : DummyContract) : DummyFunction :=
  mkDummyFunction "decimals" VNone None.

Definition symbol (c : DummyContract) : DummyFunction :=
  mkDummyFunction "symbol" VNone None.

Definition approve (c : DummyContract) (spender : string) (value : Z)
  : M DummyFunction :=
  record (EvApprove spender value) ;;;
  ret (mkDummyFunction "approve" VNone
         (Some [("approved_to", VStr spender);
                ("approved_value", VInt value)]%string)).

Definition swapExactETHForTokens (c : DummyContract)
    (amountOutMin : Z) (path : list string) (to : string) (deadline : Z)
  : M DummyFunction :=
  record (EvSwapExactETHForTokens amountOutMin path to deadline) ;;;
  ret (mkDummyFunction "swapExactETHForTokens" VNone
         (Some [("swap", VStr "eth->tokens")]%string)).

Definition swapExactTokensForETH (c : DummyContract)
    (amountIn amountOutMin : Z) (path : list string) (to : string)
    (deadline : Z)
  : M DummyFunction :=
  record (EvSwapExactTokensForETH amountIn amountOutMin path to deadline) ;;;
  ret (mkDummyFunction "swapExactTokensForETH" VNone
         (Some [("swap", VStr "tokens->eth")]%string)).

(* ================================================================== *)
(** ** Configuration and core functions *)

Definition ROUTER_ADDRESS : string :=
  "0x7a250d5630B4cF539739dF2C5dAcb4c659F2488D".
Definition WETH_ADDRESS : string :=
  "0xC02aaA39b223FE8D0A0e5C4F27eAD9083C756Cc2".

Definition router : DummyContract :=
  contract (to_checksum_address ROUTER_ADDRESS).

(** [float("5")]. *)
Definition five : float := Fin 5 0.

(** [int(balance * percentage / 100)] (line 238); a balance that is not
    an int cannot be divided. *)
Definition sell_amount_of (balance : Val) (percentage : Z) : Result Z :=
  match balance with
  | VInt b => rbind (py_truediv (b * percentage) 100) py_int
  | _ => Raise TypeError
  end.

(** [str(v)], as an f-string renders a value. *)
Definition py_str (v : Val) : string :=
  match v with
  | VNone => "None"
  | VInt z => str_int z
  | VStr s => s
  end.

(** [raw_balance / (10 ** decimals)] (line 179), for ints and
    [decimals >= 0] (the client returns 18; with a negative exponent Python
    leaves integer arithmetic, which is not modelled). *)
Definition display_units (raw_balance decimals : Val) : Result float :=
  match raw_balance, decimals with
  | VInt r, VInt d => py_truediv r (10 ^ d)
  | _, _ => Raise TypeError
  end.

Section Core.

(** [ADDRESS = account.address], fixed when the module is loaded. *)
Variable ADDRESS : string.

Definition check_token_balance (token_address : string) : M string :=
  let token := contract (to_checksum_address token_address) in
  raw_balance <- call (balanceOf token ADDRESS) ;;
  decimals <- call (decimals token) ;;
  symbol <- call (symbol token) ;;
  balance <- lift (display_units raw_balance decimals) ;;
  ret (format_4f balance ++ " " ++ py_str symbol)%string.

Definition swap_buy (token_address : string) (eth_amount : float)
  : M string :=
  let token_address := to_checksum_address token_address in
  let path := [to_checksum_address WETH_ADDRESS; token_address] in
  now <- get_block_timestamp ;;
  let deadline := now + 1200 in
  f <- swapExactETHForTokens router 0 path ADDRESS deadline ;;
  value <- lift (_to_wei eth_amount "ether") ;;
  gasPrice <- lift (_to_wei five "gwei") ;;
  nonce <- get_transaction_count ADDRESS ;;
  tx <- build_transaction f
          [("from", VStr ADDRESS); ("value", VInt value);
           ("gas", VInt 250000); ("gasPrice", VInt gasPrice);
           ("nonce", VInt nonce)]%string ;;
  signed_tx <- sign_transaction tx ;;
  tx_hash <- send_raw_transaction signed_tx ;;
  ret ("Buy Tx Sent: " ++ to_hex tx_hash)%string.

Definition swap_sell (token_address : string) (percentage : Z) : M string :=
  let token_address := to_checksum_address token_address in
  let token := contract token_address in
  balance <- call (balanceOf token ADDRESS) ;;
  decimals <- call (decimals token) ;;
  sell_amount <- lift (sell_amount_of balance percentage) ;;
  f <- approve token (to_checksum_address ROUTER_ADDRESS) sell_amount ;;
  gasPrice <- lift (_to_wei five "gwei") ;;
  nonce <- get_transaction_count ADDRESS ;;
  approve_tx <- build_transaction f
          [("from", VStr ADDRESS); ("gas", VInt 80000);
           ("gasPrice", VInt gasPrice); ("nonce", VInt nonce)]%string ;;
  signed_approve <- sign_transaction approve_tx ;;
  _ <- send_raw_transaction signed_approve ;;
  let path := [token_address; to_checksum_address WETH_ADDRESS] in
  now <- get_block_timestamp ;;
  let deadline := now + 1200 in
  g <- swapExactTokensForETH router sell_amount 0 path ADDRESS deadline ;;
  gasPrice <- lift (_to_wei five "gwei") ;;
  nonce <- get_transaction_count ADDRESS ;;
  sell_tx <- build_transaction g
          [("from", VStr ADDRESS); ("gas", VInt 250000);
           ("gasPrice", VInt gasPrice); ("nonce", VInt nonce)]%string ;;
  signed_sell <- sign_transaction sell_tx ;;
  tx_hash <- send_raw_transaction signed_sell ;;
  ret ("Sell Tx Sent: " ++ to_hex tx_hash)%string.

End Core.

(* ================================================================== *)
(** ** Vocabulary of the statements *)

(** The events a computation appends to the log. *)
Definition new_calls {A : Type} (c : M A) (w : World) : list Event :=
  skipn (List.length (calls w)) (calls (snd (c w))).

(** The [i]-th raw draw still to come, and the next clock reading. *)
Definition nth_draw (w : World) (i : nat) : Z := rng w (i + rng_next w)%nat.
Definition next_timestamp (w : World) : Z := clock w (clock_next w).

(** A world that starts with an empty log and the given oracles. *)
Definition world_of (draws timestamps : list Z) : World :=
  mkWorld (fun i => nth i draws 0) 0 (fun i => nth i timestamps 0) 0 [].

(** The [w] low hexadecimal digits of [n], most significant first. *)
Fixpoint hex_fixed (w : nat) (n : Z) : string :=
  match w with
  | O => EmptyString
  | S w' => String (hex_digit (n / 16 ^ Z.of_nat w' mod 16)) (hex_fixed w' n)
  end.

(** Big-endian bytes of the low [8 * n] bits. *)
Fixpoint be_bytes (n : nat) (z : Z) : list byte :=
  match n with
  | O => []
  | S n' => byte_of_Z (z / 256 ^ Z.of_nat n' mod 256) :: be_bytes n' z
  end.

(** The transaction hash the client makes from a raw draw. *)
Definition tx_hash_of (r : Z) : list byte := be_bytes 8 (r mod 2 ^ 64).

Definition dummy_raw : list byte := list_byte_of_string "dummy_tx".

(** The balance [balanceOf] is about to return. *)
Definition balance_read (w : World) : Z := 1 + nth_draw w 0 mod 10 ^ 18.

(** The three transactions, as [build_transaction] returns them. *)
Definition approve_tx (ADDRESS : string) (value nonce : Z) : dict :=
  [("from", VStr ADDRESS); ("to", VStr "0xDummy"); ("value", VInt 0);
   ("gas", VInt 80000); ("gasPrice", VInt 5000000000);
   ("nonce", VInt nonce); ("data", VStr "<dummy_data>");
   ("approved_to", VStr ROUTER_ADDRESS);
   ("approved_value", VInt value)]%string.

Definition sell_tx (ADDRESS : string) (nonce : Z) : dict :=
  [("from", VStr ADDRESS); ("to", VStr "0xDummy"); ("value", VInt 0);
   ("gas", VInt 250000); ("gasPrice", VInt 5000000000);
   ("nonce", VInt nonce); ("data", VStr "<dummy_data>");
   ("swap", VStr "tokens->eth")]%string.

Definition buy_tx (ADDRESS : string) (value nonce : Z) : dict :=
  [("from", VStr ADDRESS); ("to", VStr "0xDummy"); ("value", VInt value);
   ("gas", VInt 250000); ("gasPrice", VInt 5000000000);
   ("nonce", VInt nonce); ("data", VStr "<dummy_data>");
   ("swap", VStr "eth->tokens")]%string.

(** What a completed [swap_sell] appends to the log, for sell amount [v]. *)
Definition sell_trace (ADDRESS tok : string) (w : World) (v : Z)
  : list Event :=
  [EvCall "balanceOf" (VInt (balance_read w));
   EvCall "decimals" (VInt 18);
   EvApprove ROUTER_ADDRESS v;
   EvGetTransactionCount ADDRESS (nth_draw w 1 mod 21);
   EvBuildTransaction "approve" (approve_tx ADDRESS v (nth_draw w 1 mod 21));
   EvSignTransaction (approve_tx ADDRESS v (nth_draw w 1 mod 21));
   EvSendRawTransaction dummy_raw (tx_hash_of (nth_draw w 2));
   EvGetBlock (next_timestamp w);
   EvSwapExactTokensForETH v 0 [tok; WETH_ADDRESS] ADDRESS
     (next_timestamp w + 1200);
   EvGetTransactionCount ADDRESS (nth_draw w 3 mod 21);
   EvBuildTransaction "swapExactTokensForETH"
     (sell_tx ADDRESS (nth_draw w 3 mod 21));
   EvSignTransaction (sell_tx ADDRESS (nth_draw w 3 mod 21));
   EvSendRawTransaction dummy_raw (tx_hash_of (nth_draw w 4))].

(** What [swap_buy] appends before it converts the amount, and after. *)
Definition buy_trace_head (ADDRESS tok : string) (w : World) : list Event :=
  [EvGetBlock (next_timestamp w);
   EvSwapExactETHForTokens 0 [WETH_ADDRESS; tok] ADDRESS
     (next_timestamp w + 1200)].

Definition buy_trace_tail (ADDRESS : string) (w : World) (value : Z)
  : list Event :=
  [EvGetTransactionCount ADDRESS (nth_draw w 0 mod 21);
   EvBuildTransaction "swapExactETHForTokens"
     (buy_tx ADDRESS value (nth_draw w 0 mod 21));
   EvSignTransaction (buy_tx ADDRESS value (nth_draw w 0 mod 21));
   EvSendRawTransaction dummy_raw (tx_hash_of (nth_draw w 1))].

(** Projections of a log. *)
Definition built_nonces (l : list Event) : list (string * Val) :=
  flat_map (fun ev =>
    match ev with
    | EvBuildTransaction fn tx => [(fn, dict_get tx "nonce" VNone)]
    | _ => []
    end) l.

Definition deadlines (l : list Event) : list Z :=
  flat_map (fun ev =>
    match ev with
    | EvSwapExactETHForTokens _ _ _ d => [d]
    | EvSwapExactTokensForETH _ _ _ _ d => [d]
    | _ => []
    end) l.

Definition buy_paths (l : list Event) : list (list string) :=
  flat_map (fun ev =>
    match ev with
    | EvSwapExactETHForTokens _ path _ _ => [path]
    | _ => []
    end) l.

Definition sell_paths (l : list Event) : list (list string) :=
  flat_map (fun ev =>
    match ev with
    | EvSwapExactTokensForETH _ _ path _ _ => [path]
    | _ => []
    end) l.

Definition min_outs (l : list Event) : list Z :=
  flat_map (fun ev =>
    match ev with
    | EvSwapExactETHForTokens m _ _ _ => [m]
    | EvSwapExactTokensForETH _ m _ _ _ => [m]
    | _ => []
    end) l.

Definition chain_reads (l : list Event) : nat :=
  List.length (filter (fun ev =>
    match ev with
    | EvCall _ _ | EvGetBlock _ | EvGetTransactionCount _ _ => true
    | _ => false
    end) l).

(** Recognisers of the two transactions of a sell. *)
Definition is_approve_tx (tx : dict) : bool :=
  match dict_get tx "approved_value" VNone with
  | VNone => false
  | _ => true
  end.

Definition is_sell_swap_tx (tx : dict) : bool :=
  match dict_get tx "swap" VNone with
  | VStr s => String.eqb s "tokens->eth"
  | _ => false
  end.

(** The steps that build the sell-swap transaction: the router call,
    [build_transaction] on it, and its signing. *)
Definition builds_sell_swap (ev : Event) : bool :=
  match ev with
  | EvSwapExactTokensForETH _ _ _ _ _ => true
  | EvBuildTransaction fn _ => String.eqb fn "swapExactTokensForETH"
  | EvSignTransaction tx => is_sell_swap_tx tx
  | _ => false
  end.

(** Position [i] of the log builds the sell-swap transaction, or submits it
    (a submission that follows its signing). *)
Definition sell_swap_step (l : list Event) (i : nat) : Prop :=
  (exists ev, nth_error l i = Some ev /\ builds_sell_swap ev = true) \/
  (exists raw h j tx,
      nth_error l i = Some (EvSendRawTransaction raw h) /\ (j < i)%nat /\
      nth_error l j = Some (EvSignTransaction tx) /\
      is_sell_swap_tx tx = true).

(** Before position [i] the approve transaction was signed, and a
    submission call made after that signing has returned. *)
Definition approve_acknowledged_before (l : list Event) (i : nat) : Prop :=
  exists j k tx raw h,
    (j < k)%nat /\ (k < i)%nat /\
    nth_error l j = Some (EvSignTransaction tx) /\ is_approve_tx tx = true /\
    nth_error l k = Some (EvSendRawTransaction raw h).

(** The two operations that reach the router. *)
Inductive Op : Type :=
| Buy (token : string) (eth_amount : float)
| Sell (token : string) (percentage : Z).

Definition run_op (ADDRESS : string) (op : Op) : M string :=
  match op with
  | Buy t a => swap_buy ADDRESS t a
  | Sell t p => swap_sell ADDRESS t p
  end.

(** Whether the operation gets as far as its router call: a buy always
    does, a sell does when [int(balance * percentage / 100)] returns. *)
Definition reaches_router (op : Op) (w : World) : bool :=
  match op with
  | Buy _ _ => true
  | Sell _ p =>
      match sell_amount_of (VInt (balance_read w)) p with
      | Ok _ => true
      | Raise _ => false
      end
  end.

(** The block timestamps read, oldest first. *)
Definition block_reads (l : list Event) : list Z :=
  flat_map (fun ev =>
    match ev with
    | EvGetBlock t => [t]
    | _ => []
    end) l.

(** Conversion to base units and back (the exponent of ["ether"] is 18, of
    ["gwei"] 9). *)
Definition round_trip (amount : float) (unit : string) (decimals : Z)
  : Result float :=
  rbind (_to_wei amount unit)
    (fun n => display_units (VInt n) (VInt decimals)).

Definition unit_exponent (unit : string) (decimals : Z) : Prop :=
  (unit = "ether"%string /\ decimals = 18) \/
  (unit = "gwei"%string /\ decimals = 9).

(** Lower-casing, to compare addresses up to letter case. *)
Definition lower_ascii (c : ascii) : ascii :=
  let n := nat_of_ascii c in
  if (65 <=? n)%nat && (n <=? 90)%nat then ascii_of_nat (n + 32) else c.

Fixpoint lower (s : string) : string :=
  match s with
  | EmptyString => EmptyString
  | String c s' => String (lower_ascii c) (lower s')
  end.


(** Worlds of the examples: a balance of 200 with both transaction counts
    read as 7; a balance of 10^18 - 1; a buy followed by a sell with the
    clock advancing from 1000 to 1012; a balance of 1000. *)
Definition collide_world : World :=
  world_of [199; 7; 4660; 7; 22136] [1000].

Definition full_balance_world : World :=
  world_of [10 ^ 18 - 2; 7; 4660; 8; 22136] [1000].

Definition two_ticks_world : World :=
  world_of [5; 3735928559; 199; 7; 4660; 8; 22136] [1000; 1012].

Definition thousand_world : World :=
  world_of [999] [].

(** A balance of 15649999999999999, just below 0.01565 units. *)
Definition rounding_world : World :=
  world_of [15649999999999998] [].

(** Reading a printed amount back: the value of a decimal digit, and the
    number a string of decimal digits denotes. *)
Definition digit_value (c : ascii) : option Z :=
  let n := Z.of_nat (nat_of_ascii c) in
  if (48 <=? n) && (n <=? 57) then Some (n - 48) else None.

Fixpoint decimal_value_from (acc : Z) (s : string) : option Z :=
  match s with
  | EmptyString => Some acc
  | String c s' =>
      match digit_value c with
      | Some d => decimal_value_from (10 * acc + d) s'
      | None => None
      end
  end.

Definition decimal_value (s : string) : option Z := decimal_value_from 0 s.

(** [n] ten-thousandths written with four fraction digits. *)
Definition render_4 (n : Z) : string :=
  (str_int (n / 10000) ++ "." ++ frac4 (n mod 10000))%string.

(** The IEEE 754 reading of a float, in the Standard Library's format. *)
Definition spec_of (f : float) : SpecFloat.spec_float :=
  match f with
  | Fin 0 _ => SpecFloat.S754_zero false
  | Fin (Zpos p) e => SpecFloat.S754_finite false p e
  | Fin (Zneg p) e => SpecFloat.S754_finite true p e
  | Inf s => SpecFloat.S754_infinity s
  | NaN => SpecFloat.S754_nan
  end.

Definition spec_of_result (r : Result float) : SpecFloat.spec_float :=
  match r with
  | Ok f => spec_of f
  | Raise _ => SpecFloat.S754_nan
  end.

(** [float(n)] in the Standard Library's format. *)
Definition ieee_of_int (n : Z) : SpecFloat.spec_float :=
  SpecFloat.binary_normalize 53 1024 n 0 false.

(* ================================================================== *)
(** ** More of the program: the account and the demo *)

(** [DummyAccount(private_key).address] (line 49). *)
Definition DummyAccount_address : M string :=
  r <- getrandbits 160 ;;
  ret ("0x" ++ rjust 40 "0" (format_x r))%string.

(** [-x] on floats. *)
Definition fneg (x : float) : float :=
  match x with
  | Fin m e => Fin (- m) e
  | Inf s => Inf (negb s)
  | NaN => NaN
  end.

Definition rmap {A B : Type} (f : A -> B) (r : Result A) : Result B :=
  match r with
  | Ok a => Ok (f a)
  | Raise x => Raise x
  end.

(** The line feed that starts three of the demo's lines. *)
Definition nl : string := String (ascii_of_nat 10) EmptyString.

(** [0.01], the nearest binary64. *)
Definition one_hundredth : float := Fin 5764607523034235 (-59).

(** The demo block (lines 272-286); the value is the list of the lines
    printed, in order. *)
Definition main (ADDRESS : string) : M (list string) :=
  let sample_token := "0x000000000000000000000000000000000000dead"%string in
  balance <- check_token_balance ADDRESS sample_token ;;
  buy_tx <- swap_buy ADDRESS sample_token one_hundredth ;;
  sell_tx <- swap_sell ADDRESS sample_token 50 ;;
  ret ["Checking token balance..."; "Balance: " ++ balance;
       nl ++ "Simulating buy..."; buy_tx;
       nl ++ "Simulating sell..."; sell_tx;
       nl ++ "Demo run complete!"]%string.

(** More projections of a log. *)
Definition approvals (l : list Event) : list (string * Z) :=
  flat_map (fun ev =>
    match ev with
    | EvApprove spender value => [(spender, value)]
    | _ => []
    end) l.

Definition amounts_in (l : list Event) : list Z :=
  flat_map (fun ev =>
    match ev with
    | EvSwapExactTokensForETH a _ _ _ _ => [a]
    | _ => []
    end) l.

Definition recipients (l : list Event) : list string :=
  flat_map (fun ev =>
    match ev with
    | EvSwapExactETHForTokens _ _ to _ => [to]
    | EvSwapExactTokensForETH _ _ _ to _ => [to]
    | _ => []
    end) l.

Definition built_txs (l : list Event) : list dict :=
  flat_map (fun ev =>
    match ev with
    | EvBuildTransaction _ tx => [tx]
    | _ => []
    end) l.

Definition signed_txs (l : list Event) : list dict :=
  flat_map (fun ev =>
    match ev with
    | EvSignTransaction tx => [tx]
    | _ => []
    end) l.

Definition submissions (l : list Event) : list (list byte) :=
  flat_map (fun ev =>
    match ev with
    | EvSendRawTransaction raw _ => [raw]
    | _ => []
    end) l.

(** The first binding of a key. *)
Fixpoint dict_find (d : dict) (k : string) : option Val :=
  match d with
  | [] => None
  | (k', v) :: d' => if String.eqb k k' then Some v else dict_find d' k
  end.

(** The seven fields [build_transaction] always writes. *)
Definition standard_fields : list string :=
  ["from"; "to"; "value"; "gas"; "gasPrice"; "nonce"; "data"]%string.

Definition is_lower_hex (c : ascii) : bool :=
  let n := nat_of_ascii c in
  ((48 <=? n)%nat && (n <=? 57)%nat) || ((97 <=? n)%nat && (n <=? 102)%nat).

Fixpoint string_forallb (p : ascii -> bool) (s : string) : bool :=
  match s with
  | EmptyString => true
  | String c s' => p c && string_forallb p s'
  end.

(* ================================================================== *)
(** ** Rounding: powers of two, nearest integer, nearest binary64 *)

Lemma pow2_pos e : (0 < pow2 e)%Q.
Proof. unfold pow2. apply Qpower_0_lt. reflexivity. Qed.

Lemma pow2_add a b : (pow2 (a + b) == pow2 a * pow2 b)%Q.
Proof. unfold pow2. apply Qpower_plus. discriminate. Qed.

Lemma pow2_opp a : (pow2 (- a) * pow2 a == 1)%Q.
Proof.
  rewrite <- pow2_add. replace (- a + a) with 0 by lia. reflexivity.
Qed.

Lemma pow2_le a b : a <= b -> (pow2 a <= pow2 b)%Q.
Proof. intros H. unfold pow2. apply Qpower_le_compat_l; [exact H | discriminate]. Qed.

Lemma pow2_lt a b : a < b -> (pow2 a < pow2 b)%Q.
Proof. intros H. unfold pow2. apply Qpower_lt_compat_l; [exact H | reflexivity]. Qed.

Lemma pow2_lt_inv a b : (pow2 a < pow2 b)%Q -> a < b.
Proof. intros H. apply (Qpower_lt_compat_l_inv 2); [exact H | reflexivity]. Qed.

Lemma pow2_inject n : 0 <= n -> (pow2 n == inject_Z (2 ^ n))%Q.
Proof. intros H. unfold pow2. rewrite Zpower_Qpower by exact H. reflexivity. Qed.

Lemma pow2_succ a : (pow2 (a + 1) == 2 * pow2 a)%Q.
Proof. rewrite pow2_add. unfold pow2 at 2. simpl. lra. Qed.

Lemma rne_spec y : (Qabs (inject_Z (rne y) - y) <= 1 # 2)%Q.
Proof.
  unfold rne.
  pose proof (Qfloor_le y) as Hl.
  pose proof (Qlt_floor y) as Hu.
  rewrite inject_Z_plus in Hu. change (inject_Z 1) with 1%Q in Hu.
  apply Qabs_Qle_condition.
  destruct (Qcompare_spec (y - inject_Z (Qfloor y)) (1 # 2)) as [He | Hlt | Hgt].
  - destruct (Z.even (Qfloor y)); rewrite ?inject_Z_plus;
      change (inject_Z 1) with 1%Q; split; lra.
  - split; lra.
  - rewrite inject_Z_plus. change (inject_Z 1) with 1%Q. split; lra.
Qed.

(** An integer below (above) [y] stays below (above) its rounding. *)
Lemma rne_ge n y : (inject_Z n <= y)%Q -> n <= rne y.
Proof.
  intros H. unfold rne.
  assert (n <= Qfloor y) as Hf by (apply Qfloor_resp_le in H; rewrite Qfloor_Z in H; exact H).
  destruct (y - inject_Z (Qfloor y) ?= 1 # 2)%Q; [destruct (Z.even _) | |]; lia.
Qed.

Lemma rne_le n y : (y <= inject_Z n)%Q -> rne y <= n.
Proof.
  intros H. unfold rne.
  pose proof (Qfloor_le y) as Hl.
  assert (Qfloor y <= n) as Hf
    by (apply Qfloor_resp_le in H; rewrite Qfloor_Z in H; exact H).
  destruct (Z.eq_dec (Qfloor y) n) as [He | Hne].
  - rewrite He in *.
    destruct (Qcompare_spec (y - inject_Z n) (1 # 2)); try lia; lra.
  - destruct (y - inject_Z (Qfloor y) ?= 1 # 2)%Q; [destruct (Z.even _) | |]; lia.
Qed.

Lemma rne_lt n y : (y < inject_Z n + (1 # 2))%Q -> rne y <= n.
Proof.
  intros H. pose proof (rne_spec y) as Hr.
  apply Qabs_Qle_condition in Hr.
  assert (inject_Z (rne y) < inject_Z (n + 1))%Q as Hlt
    by (rewrite inject_Z_plus; change (inject_Z 1) with 1%Q; lra).
  rewrite <- Zlt_Qlt in Hlt. lia.
Qed.

Lemma inject_Z_le a b : a <= b -> (inject_Z a <= inject_Z b)%Q.
Proof. intros H. rewrite <- Zle_Qle. exact H. Qed.

Lemma Qnum_den_mul (x : Q) :
  (x * inject_Z (Zpos (Qden x)) == inject_Z (Qnum x))%Q.
Proof. destruct x as [n d]. unfold Qeq, Qmult, inject_Z. simpl. lia. Qed.

Lemma ilog2_spec x :
  (0 < x)%Q -> (pow2 (ilog2 x) <= x)%Q /\ (x < pow2 (ilog2 x + 1))%Q.
Proof.
  intros Hx.
  assert (0 < Qnum x) as Hn.
  { destruct x as [n d]. unfold Qlt in Hx. simpl in *. lia. }
  pose proof (Qnum_den_mul x) as Hxd.
  unfold ilog2.
  set (ln := Z.log2 (Qnum x)). set (ld := Z.log2 (Zpos (Qden x))).
  pose proof (Z.log2_spec (Qnum x) Hn) as [Hn1 Hn2].
  pose proof (Z.log2_spec (Zpos (Qden x)) ltac:(lia)) as [Hd1 Hd2].
  fold ln in Hn1, Hn2. fold ld in Hd1, Hd2.
  assert (0 <= ln) as Hln by apply Z.log2_nonneg.
  assert (0 <= ld) as Hld by apply Z.log2_nonneg.
  rewrite Zle_Qle, <- pow2_inject in Hn1, Hd1 by lia.
  rewrite Zlt_Qlt, <- pow2_inject in Hn2, Hd2 by lia.
  replace (Z.succ ln) with (ln + 1) in Hn2 by lia.
  replace (Z.succ ld) with (ld + 1) in Hd2 by lia.
  set (N := inject_Z (Qnum x)) in *. set (D := inject_Z (Zpos (Qden x))) in *.
  assert (x < pow2 (ln - ld + 1))%Q as Hup.
  { pose proof (pow2_pos (ln - ld + 1)) as HP.
    assert (pow2 (ln - ld + 1) * pow2 ld == pow2 (ln + 1))%Q as HE
      by (rewrite <- pow2_add; replace (ln - ld + 1 + ld) with (ln + 1) by lia; reflexivity).
    pose proof (pow2_pos ld).
    apply Qnot_le_lt. intros Hc.
    assert (pow2 (ln - ld + 1) * D <= x * D)%Q by (apply Qmult_le_compat_r; lra).
    assert (pow2 (ln - ld + 1) * pow2 ld <= pow2 (ln - ld + 1) * D)%Q
      by (apply Qmult_le_l; lra).
    lra. }
  assert (pow2 (ln - ld - 1) < x)%Q as Hlo.
  { pose proof (pow2_pos (ln - ld - 1)) as HP.
    assert (pow2 (ln - ld - 1) * pow2 (ld + 1) == pow2 ln)%Q as HE
      by (rewrite <- pow2_add; replace (ln - ld - 1 + (ld + 1)) with ln by lia; reflexivity).
    pose proof (pow2_pos ld).
    apply Qnot_le_lt. intros Hc.
    assert (x * D <= pow2 (ln - ld - 1) * D)%Q by (apply Qmult_le_compat_r; lra).
    assert (pow2 (ln - ld - 1) * D < pow2 (ln - ld - 1) * pow2 (ld + 1))%Q
      by (apply Qmult_lt_l; lra).
    lra. }
  destruct (Qle_bool (pow2 (ln - ld)) x) eqn:Ht.
  - apply Qle_bool_iff in Ht. split; assumption.
  - assert (~ (pow2 (ln - ld) <= x)%Q) as Hnt
      by (intros Hc; apply Qle_bool_iff in Hc; congruence).
    apply Qnot_le_lt in Hnt.
    replace (ln - ld - 1 + 1) with (ln - ld) by lia.
    split; [apply Qlt_le_weak|]; assumption.
Qed.

Lemma round_pos_spec x m e :
  (0 < x)%Q -> round_pos x = (m, e) ->
  0 <= m <= 2 ^ 53 /\
  e = Z.max (ilog2 x - 52) (-1074) /\
  (x < pow2 (e + 53))%Q /\
  (Qabs (F2Q m e - x) <= x * pow2 (-53) + pow2 (-1075))%Q.
Proof.
  intros Hx Hr. unfold round_pos in Hr.
  injection Hr as Hm He.
  destruct (ilog2_spec x Hx) as [Hlo Hup].
  set (k := ilog2 x) in *.
  set (y := (x * pow2 (- e))%Q).
  assert (y * pow2 e == x)%Q as Hy.
  { unfold y. rewrite <- Qmult_assoc, pow2_opp. lra. }
  pose proof (pow2_pos e) as Pe. pose proof (pow2_pos (- e)) as Pne.
  assert (x < pow2 (e + 53))%Q as Hx53.
  { apply Qlt_le_trans with (pow2 (k + 1)); [exact Hup|]. apply pow2_le. lia. }
  assert (0 <= y)%Q as Hy0 by (unfold y; apply Qmult_le_0_compat; lra).
  assert (y <= inject_Z (2 ^ 53))%Q as Hy53.
  { rewrite <- pow2_inject by lia.
    assert (pow2 (e + 53) * pow2 (- e) == pow2 53)%Q as HE
      by (rewrite <- pow2_add; replace (e + 53 + - e) with 53 by lia; reflexivity).
    assert (x * pow2 (- e) <= pow2 (e + 53) * pow2 (- e))%Q
      by (apply Qmult_le_compat_r; lra).
    unfold y. lra. }
  assert (m = rne y) as Hm' by (subst m e; reflexivity).
  split; [|split; [lia|split; [exact Hx53|]]].
  - split; [rewrite Hm'; apply rne_ge; exact Hy0 | rewrite Hm'; apply rne_le; exact Hy53].
  - pose proof (rne_spec y) as Hr. rewrite <- Hm' in Hr.
    apply Qabs_Qle_condition in Hr. destruct Hr as [Hr1 Hr2].
    assert (F2Q m e - x == (inject_Z m - y) * pow2 e)%Q as HF
      by (unfold F2Q; rewrite <- Hy; ring).
    assert (pow2 e <= x * (2 * pow2 (-53)) + 2 * pow2 (-1075))%Q as Hb.
    { pose proof (pow2_pos (-53)). pose proof (pow2_pos (-1075)).
      assert (pow2 (-1074) == 2 * pow2 (-1075))%Q as E1
        by (rewrite <- pow2_succ; reflexivity).
      assert (pow2 (-52) == 2 * pow2 (-53))%Q as E2
        by (rewrite <- pow2_succ; reflexivity).
      assert (0 <= x * pow2 (-53))%Q by (apply Qmult_le_0_compat; lra).
      destruct (Z.max_spec (k - 52) (-1074)) as [[_ Hmax] | [_ Hmax]];
        rewrite He in Hmax; rewrite Hmax.
      - lra.
      - replace (k - 52) with (k + -52) by lia. rewrite pow2_add.
        assert (pow2 k * pow2 (-52) <= x * pow2 (-52))%Q
          by (apply Qmult_le_compat_r; [exact Hlo | apply Qlt_le_weak, pow2_pos]).
        assert (x * pow2 (-52) == x * (2 * pow2 (-53)))%Q
          by (rewrite E2; reflexivity).
        lra. }
    apply Qabs_Qle_condition. rewrite HF.
    assert ((inject_Z m - y) * pow2 e <= (1 # 2) * pow2 e)%Q
      by (apply Qmult_le_compat_r; lra).
    assert (- (1 # 2) * pow2 e <= (inject_Z m - y) * pow2 e)%Q
      by (apply Qmult_le_compat_r; lra).
    split; lra.
Qed.

Lemma round_pos_no_overflow x m e :
  (0 < x)%Q -> (x < pow2 1023)%Q -> round_pos x = (m, e) ->
  overflows m e = false.
Proof.
  intros Hx Hb Hr.
  destruct (round_pos_spec x m e Hx Hr) as [[Hm0 Hm] [He [_ _]]].
  destruct (ilog2_spec x Hx) as [Hlo _].
  assert (ilog2 x < 1023) as Hk
    by (apply pow2_lt_inv; apply Qle_lt_trans with x; assumption).
  assert (e + 53 <= 1023) as He' by lia.
  assert (F2Q m e < pow2 1024)%Q as Hlt.
  { unfold F2Q.
    apply Qle_lt_trans with (pow2 (e + 53)).
    - replace (e + 53) with (53 + e) by lia. rewrite pow2_add.
      apply Qmult_le_compat_r; [|apply Qlt_le_weak, pow2_pos].
      rewrite pow2_inject by lia. rewrite <- Zle_Qle. lia.
    - apply pow2_lt. lia. }
  unfold overflows.
  destruct (Qle_bool (pow2 1024) (F2Q m e)) eqn:Ht; [|reflexivity].
  apply Qle_bool_iff in Ht. lra.
Qed.

Lemma fround_finite x :
  (Qabs x < pow2 1023)%Q ->
  exists m e,
    fround x = Fin m e /\
    (Qabs (F2Q m e - x) <= Qabs x * pow2 (-53) + pow2 (-1075))%Q /\
    ((0 <= x)%Q -> 0 <= m) /\ ((x <= 0)%Q -> m <= 0).
Proof.
  intros Hb. unfold fround.
  destruct (Qcompare_spec x 0) as [He | Hlt | Hgt].
  - exists 0, 0. split; [reflexivity|].
    pose proof (pow2_pos (-1075)).
    split; [|split; intros; lia].
    rewrite He. unfold F2Q. 
    vm_compute. discriminate.
  - assert (0 < - x)%Q as Hx by lra.
    assert (Qabs x == - x)%Q as Ha by (apply Qabs_neg; lra).
    rewrite Ha in Hb.
    destruct (round_pos (- x)) as [m e] eqn:Hr.
    rewrite (round_pos_no_overflow _ _ _ Hx Hb Hr).
    destruct (round_pos_spec _ _ _ Hx Hr) as [[Hm0 Hm] [_ [_ Herr]]].
    exists (- m), e. split; [reflexivity|].
    split; [|split; intros; [lra | lia]].
    rewrite Ha.
    assert (F2Q (- m) e - x == - (F2Q m e - - x))%Q as HF
      by (unfold F2Q; rewrite inject_Z_opp; ring).
    rewrite HF, Qabs_opp. exact Herr.
  - assert (Qabs x == x)%Q as Ha by (apply Qabs_pos; lra).
    rewrite Ha in Hb.
    destruct (round_pos x) as [m e] eqn:Hr.
    rewrite (round_pos_no_overflow _ _ _ Hgt Hb Hr).
    destruct (round_pos_spec _ _ _ Hgt Hr) as [[Hm0 Hm] [_ [_ Herr]]].
    exists m, e. split; [reflexivity|].
    split; [|split; intros; [lia | lra]].
    rewrite Ha. exact Herr.
Qed.

Lemma trunc_spec m e :
  0 <= m ->
  0 <= trunc m e /\
  (inject_Z (trunc m e) <= F2Q m e)%Q /\
  (F2Q m e < inject_Z (trunc m e) + 1)%Q.
Proof.
  intros Hm. unfold trunc, F2Q.
  destruct (Z.leb_spec 0 e) as [He | He].
  - rewrite pow2_inject by lia. rewrite <- inject_Z_mult.
    split; [apply Z.mul_nonneg_nonneg; [lia | apply Z.pow_nonneg; lia]|].
    split; lra.
  - assert (0 < 2 ^ (- e)) as Hp by (apply Z.pow_pos_nonneg; lia).
    rewrite Z.quot_div_nonneg by lia.
    pose proof (Z.div_mod m (2 ^ (- e)) ltac:(lia)) as Hdm.
    pose proof (Z.mod_pos_bound m (2 ^ (- e)) Hp) as Hmod.
    assert (pow2 e * inject_Z (2 ^ (- e)) == 1)%Q as HE.
    { rewrite <- pow2_inject by lia. rewrite Qmult_comm. apply pow2_opp. }
    set (q := m / 2 ^ (- e)) in *. set (r := m mod 2 ^ (- e)) in *.
    set (P := 2 ^ (- e)) in *.
    assert (inject_Z m == inject_Z P * inject_Z q + inject_Z r)%Q as Hm'
      by (rewrite <- inject_Z_mult, <- inject_Z_plus, <- Hdm; reflexivity).
    assert (0 <= inject_Z r)%Q by (rewrite <- (Zle_Qle 0); lia).
    assert (inject_Z r < inject_Z P)%Q by (rewrite <- Zlt_Qlt; lia).
    pose proof (pow2_pos e) as Pe.
    assert (inject_Z m * pow2 e == inject_Z q + inject_Z r * pow2 e)%Q as HF.
    { rewrite Hm'. 
      setoid_replace ((inject_Z P * inject_Z q + inject_Z r) * pow2 e)%Q
        with ((pow2 e * inject_Z P) * inject_Z q + inject_Z r * pow2 e)%Q by ring.
      rewrite HE. ring. }
    assert (0 <= inject_Z r * pow2 e)%Q by (apply Qmult_le_0_compat; lra).
    assert (inject_Z r * pow2 e < inject_Z P * pow2 e)%Q
      by (apply Qmult_lt_compat_r; lra).
    assert (inject_Z P * pow2 e == 1)%Q by (rewrite Qmult_comm; exact HE).
    split; [apply Z.div_pos; lia|].
    split; lra.
Qed.

(* ================================================================== *)
(** ** The float model against IEEE 754 and against CPython *)

(** [fmul], [float_of_int] and [py_truediv] give what the Standard
    Library's IEEE 754 operations give at binary64. *)
Example fmul_conforms :
  spec_of (fmul (Fin 5764607523034235 (-59)) (Fin 7812500000000000 7)) =
  SpecFloat.SFmul 53 1024
    (spec_of (Fin 5764607523034235 (-59)))
    (spec_of (Fin 7812500000000000 7)).
Proof. vm_compute. reflexivity. Qed.

Example fmul_conforms_large :
  spec_of (fmul (Fin 6550770429955353 0) (Fin 7812500000000000 7)) =
  SpecFloat.SFmul 53 1024
    (spec_of (Fin 6550770429955353 0)) (spec_of (Fin 7812500000000000 7)).
Proof. vm_compute. reflexivity. Qed.

Example float_of_int_conforms :
  map (fun n => spec_of_result (float_of_int n))
    [0; 1; 1000; 10 ^ 9; 10 ^ 18; 10 ^ 18 - 1; 2 ^ 53 + 1; 2 ^ 53 + 3;
     - (10 ^ 30 + 7)] =
  map ieee_of_int
    [0; 1; 1000; 10 ^ 9; 10 ^ 18; 10 ^ 18 - 1; 2 ^ 53 + 1; 2 ^ 53 + 3;
     - (10 ^ 30 + 7)].
Proof. vm_compute. reflexivity. Qed.

Example py_truediv_conforms :
  spec_of_result (py_truediv 1000 (10 ^ 18)) =
  SpecFloat.SFdiv 53 1024 (ieee_of_int 1000) (ieee_of_int (10 ^ 18)).
Proof. vm_compute. reflexivity. Qed.

Example py_truediv_exact_quotient_conforms :
  spec_of_result (py_truediv ((10 ^ 18 - 1) * 100) 100) =
  ieee_of_int (10 ^ 18 - 1).
Proof. vm_compute. reflexivity. Qed.

(** Values CPython gives for the same expressions. *)
Example to_wei_one_hundredth :
  _to_wei (Fin 5764607523034235 (-59)) "ether" = Ok 10000000000000000.
Proof. vm_compute. reflexivity. Qed.

Example to_wei_overflow :
  _to_wei (Fin 6724873095247260 944) "ether" = Raise OverflowError.
Proof. vm_compute. reflexivity. Qed.

Example truediv_overflow : py_truediv (10 ^ 400) 100 = Raise OverflowError.
Proof. vm_compute. reflexivity. Qed.

Example truediv_ties_to_even :
  rbind (py_truediv ((2 ^ 53 + 1) * 100) 100) py_int = Ok (2 ^ 53).
Proof. vm_compute. reflexivity. Qed.

Example format_4f_examples :
  map format_4f
    [Fin 5070602400912918 (-102); Fin 1 (-1); Fin (-1) (-20);
     Fin 6550770429955354 0; Fin 7378697629483821 (-67)] =
  ["0.0000"; "0.5000"; "-0.0000"; "6550770429955354.0000"; "0.0001"]%string.
Proof. vm_compute. reflexivity. Qed.

(* ================================================================== *)
(** ** Hexadecimal strings *)

Lemma bind_ok {A B : Type} (c : M A) (k : A -> M B) w a w' :
  c w = (Ok a, w') -> bind c k w = k a w'.
Proof. intros H. unfold bind. rewrite H. reflexivity. Qed.

Lemma bind_raise {A B : Type} (c : M A) (k : A -> M B) w x w' :
  c w = (Raise x, w') -> bind c k w = (Raise x, w').
Proof. intros H. unfold bind. rewrite H. reflexivity. Qed.

Lemma string_app_assoc (a b c : string) :
  ((a ++ b) ++ c = a ++ (b ++ c))%string.
Proof. induction a as [|x a IH]; [reflexivity | cbn; rewrite IH; reflexivity]. Qed.

Lemma string_app_length (a b : string) :
  String.length (a ++ b) = (String.length a + String.length b)%nat.
Proof. induction a as [|x a IH]; [reflexivity | cbn; rewrite IH; reflexivity]. Qed.

Lemma hex_fixed_length w n : String.length (hex_fixed w n) = w.
Proof. induction w as [|w IH]; [reflexivity | cbn; rewrite IH; reflexivity]. Qed.

Lemma hex_digit_lower d : 0 <= d < 16 -> is_lower_hex (hex_digit d) = true.
Proof.
  intros H.
  assert (d = 0 \/ d = 1 \/ d = 2 \/ d = 3 \/ d = 4 \/ d = 5 \/ d = 6 \/ d = 7 \/
          d = 8 \/ d = 9 \/ d = 10 \/ d = 11 \/ d = 12 \/ d = 13 \/ d = 14 \/
          d = 15) as Hd by lia.
  repeat (destruct Hd as [-> | Hd]; [reflexivity|]). subst d. reflexivity.
Qed.

Lemma hex_fixed_lower w n : string_forallb is_lower_hex (hex_fixed w n) = true.
Proof.
  induction w as [|w IH]; [reflexivity|].
  cbn [hex_fixed string_forallb]. rewrite IH, hex_digit_lower; [reflexivity|].
  apply Z.mod_pos_bound. lia.
Qed.

(** The digits of [n] are the digits of [n / 16] followed by the last one. *)
Lemma hex_fixed_snoc d n :
  hex_fixed (S d) n =
  (hex_fixed d (n / 16) ++ String (hex_digit (n mod 16)) EmptyString)%string.
Proof.
  induction d as [|d IH].
  - cbn. rewrite Z.div_1_r. reflexivity.
  - change (hex_fixed (S (S d)) n)
      with (String (hex_digit (n / 16 ^ Z.of_nat (S d) mod 16))
              (hex_fixed (S d) n)).
    rewrite IH. cbn [hex_fixed String.append]. f_equal. f_equal. f_equal.
    replace (Z.of_nat (S d)) with (1 + Z.of_nat d) by lia.
    rewrite Z.pow_add_r by lia. change (16 ^ 1) with 16.
    rewrite Z.div_div by (try lia; apply Z.pow_pos_nonneg; lia).
    reflexivity.
Qed.

(** Above its last digit a number only has zeros. *)
Lemma hex_fixed_pad d w n :
  (d <= w)%nat -> 0 <= n < 16 ^ Z.of_nat d ->
  hex_fixed w n = (repeat_char "0" (w - d) ++ hex_fixed d n)%string.
Proof.
  intros Hdw Hn. induction w as [|w IH].
  - assert (d = 0%nat) as -> by lia. reflexivity.
  - destruct (Nat.eq_dec d (S w)) as [-> | Hne].
    + rewrite Nat.sub_diag. reflexivity.
    + replace (S w - d)%nat with (S (w - d)) by lia.
      cbn [hex_fixed repeat_char String.append].
      rewrite IH by lia. f_equal.
      assert (16 ^ Z.of_nat d <= 16 ^ Z.of_nat w)
        by (apply Z.pow_le_mono_r; lia).
      rewrite Z.div_small by lia. reflexivity.
Qed.

Lemma format_x_aux_spec fuel :
  forall n acc,
    (0 < fuel)%nat -> 0 <= n < 16 ^ Z.of_nat fuel ->
    exists d,
      (1 <= d <= fuel)%nat /\ n < 16 ^ Z.of_nat d /\
      16 ^ Z.of_nat (d - 1) <= Z.max n 1 /\
      format_x_aux fuel n acc = (hex_fixed d n ++ acc)%string.
Proof.
  induction fuel as [|f IH]; intros n acc Hf Hn; [lia|].
  cbn [format_x_aux]. cbv zeta.
  destruct (Z.eqb_spec (n / 16) 0) as [Hz | Hnz].
  - exists 1%nat. split; [lia|]. split; [|split].
    + change (16 ^ Z.of_nat 1) with 16.
      apply Z.div_small_iff in Hz; lia.
    + change (16 ^ Z.of_nat (1 - 1)) with 1. lia.
    + cbn. rewrite Z.div_1_r. reflexivity.
  - assert (0 < n / 16) as Hq
      by (pose proof (Z.div_pos n 16 ltac:(lia) ltac:(lia)); lia).
    assert (n / 16 < 16 ^ Z.of_nat f) as Hqb.
    { apply Z.div_lt_upper_bound; [lia|].
      replace (Z.of_nat (S f)) with (1 + Z.of_nat f) in Hn by lia.
      rewrite Z.pow_add_r in Hn by lia. change (16 ^ 1) with 16 in Hn. lia. }
    assert (0 < f)%nat as Hf'.
    { destruct f; [|lia]. change (16 ^ Z.of_nat 0) with 1 in Hqb. lia. }
    destruct (IH (n / 16) (String (hex_digit (n mod 16)) acc) Hf'
                ltac:(lia)) as (d & Hd & Hdb & Hlead & Heq).
    pose proof (Z.div_mod n 16 ltac:(lia)) as Hdm.
    pose proof (Z.mod_pos_bound n 16 ltac:(lia)) as Hmod.
    exists (S d). split; [lia|]. split; [|split].
    + replace (Z.of_nat (S d)) with (1 + Z.of_nat d) by lia.
      rewrite Z.pow_add_r by lia. change (16 ^ 1) with 16. lia.
    + replace (S d - 1)%nat with (S (d - 1)) by lia.
      replace (Z.of_nat (S (d - 1))) with (1 + Z.of_nat (d - 1)) by lia.
      rewrite Z.pow_add_r by lia. change (16 ^ 1) with 16. lia.
    + rewrite Heq, hex_fixed_snoc, string_app_assoc. reflexivity.
Qed.

Lemma string_app_empty (s : string) : (s ++ "")%string = s.
Proof. induction s as [|c s IH]; [reflexivity | cbn; rewrite IH; reflexivity]. Qed.

(** [format(n, "x").rjust(w, "0")] is the [w]-digit zero-padded hexadecimal
    of [n], for [w >= 1] and [0 <= n < 16^w]. *)
Lemma format_x_rjust w n :
  (1 <= w)%nat -> 0 <= n < 16 ^ Z.of_nat w ->
  rjust w "0" (format_x n) = hex_fixed w n.
Proof.
  intros Hw Hn. unfold format_x, rjust.
  destruct (Z.ltb_spec n 0) as [Hneg | _]; [lia|].
  set (fuel := S (Z.to_nat (Z.log2 n))).
  assert (n < 16 ^ Z.of_nat fuel) as Hfuel.
  { destruct (Z.eq_dec n 0) as [-> | Hn0];
      [apply Z.pow_pos_nonneg; lia|].
    pose proof (Z.log2_spec n ltac:(lia)) as [_ Hlt].
    pose proof (Z.log2_nonneg n).
    unfold fuel. rewrite Nat2Z.inj_succ, Z2Nat.id by lia.
    apply Z.lt_le_trans with (2 ^ Z.succ (Z.log2 n)); [exact Hlt|].
    apply Z.pow_le_mono_l. lia. }
  destruct (format_x_aux_spec fuel n EmptyString ltac:(unfold fuel; lia)
              ltac:(lia)) as (d & Hd & Hdb & Hlead & Heq).
  rewrite Heq, string_app_empty, hex_fixed_length.
  assert (d <= w)%nat as Hdw.
  { destruct (Nat.le_gt_cases d w) as [Hle | Hgt]; [exact Hle | exfalso].
    assert (16 ^ Z.of_nat w <= 16 ^ Z.of_nat (d - 1))
      by (apply Z.pow_le_mono_r; lia).
    assert (16 ^ 1 <= 16 ^ Z.of_nat w) by (apply Z.pow_le_mono_r; lia).
    change (16 ^ 1) with 16 in *. lia. }
  symmetry. apply hex_fixed_pad; [exact Hdw | lia].
Qed.

Example format_x_examples :
  map format_x [0; 9; 255; 4660; 2 ^ 64 - 1; -255] =
  ["0"; "9"; "ff"; "1234"; "ffffffffffffffff"; "-ff"]%string.
Proof. vm_compute. reflexivity. Qed.

Lemma getrandbits_run k r n c cn l :
  0 <= k ->
  getrandbits k (mkWorld r n c cn l) =
  (Ok (r n mod 2 ^ k), mkWorld r (S n) c cn l).
Proof.
  intros Hk. unfold getrandbits.
  destruct (Z.ltb_spec k 0) as [Hneg | _]; [lia | reflexivity].
Qed.

Lemma getrandbits_negative k w :
  k < 0 -> getrandbits k w = (Raise ValueError, w).
Proof.
  intros Hk. unfold getrandbits.
  destruct (Z.ltb_spec k 0) as [_ | Hpos]; [reflexivity | lia].
Qed.

Lemma pow16_pow2 (k : Z) :
  0 <= k -> 16 ^ Z.of_nat (Z.to_nat (k * 2)) = 2 ^ (k * 8).
Proof.
  intros Hk. rewrite Z2Nat.id by lia.
  replace (k * 8) with (4 * (k * 2)) by lia.
  rewrite (Z.pow_mul_r 2 4) by lia. reflexivity.
Qed.

(** For a positive count [_fast_hex] returns the zero-padded digits of the
    number drawn. *)
Lemma fast_hex_run n_bytes r n c cn l :
  1 <= n_bytes ->
  _fast_hex n_bytes (mkWorld r n c cn l) =
  (Ok ("0x" ++ hex_fixed (Z.to_nat (n_bytes * 2)) (r n mod 2 ^ (n_bytes * 8)))%string,
   mkWorld r (S n) c cn l).
Proof.
  intros Hn. unfold _fast_hex.
  rewrite (bind_ok _ _ _ _ _
             (getrandbits_run (n_bytes * 8) _ _ _ _ _ ltac:(lia))).
  cbv beta. unfold ret.
  rewrite format_x_rjust; [reflexivity | lia |].
  rewrite pow16_pow2 by lia.
  apply Z.mod_pos_bound. apply Z.pow_pos_nonneg; lia.
Qed.

(* ================================================================== *)
(** ** Runs of the client and of the core functions *)

Lemma hex_val_hex_digit d : 0 <= d < 16 -> hex_val (hex_digit d) = Some d.
Proof.
  intros H.
  assert (d = 0 \/ d = 1 \/ d = 2 \/ d = 3 \/ d = 4 \/ d = 5 \/ d = 6 \/ d = 7 \/
          d = 8 \/ d = 9 \/ d = 10 \/ d = 11 \/ d = 12 \/ d = 13 \/ d = 14 \/
          d = 15) as Hd by lia.
  repeat (destruct Hd as [-> | Hd]; [reflexivity|]). subst d. reflexivity.
Qed.

Lemma bytes_fromhex_hex_fixed n z :
  bytes_fromhex (hex_fixed (2 * n) z) = Ok (be_bytes n z).
Proof.
  induction n as [|n IH]; [reflexivity|].
  replace (2 * S n)%nat with (S (S (2 * n))) by lia.
  cbn [hex_fixed bytes_fromhex be_bytes].
  rewrite !hex_val_hex_digit by (apply Z.mod_pos_bound; lia).
  rewrite IH. cbn [rbind]. do 3 f_equal.
  replace (Z.of_nat (S (2 * n))) with (Z.of_nat (2 * n) + 1) by lia.
  replace (256 ^ Z.of_nat n) with (16 ^ Z.of_nat (2 * n)).
  2:{ replace (Z.of_nat (2 * n)) with (2 * Z.of_nat n) by lia.
      rewrite Z.pow_mul_r by lia. reflexivity. }
  rewrite Z.pow_add_r by lia. change (16 ^ 1) with 16.
  assert (0 < 16 ^ Z.of_nat (2 * n)) as Hp by (apply Z.pow_pos_nonneg; lia).
  rewrite <- Z.div_div by lia.
  set (q := z / 16 ^ Z.of_nat (2 * n)).
  change 256 with (16 * 16). rewrite Z.rem_mul_r by lia. lia.
Qed.

Lemma skipn_length_app {A : Type} (l l' : list A) :
  skipn (List.length l) (l ++ l') = l'.
Proof. induction l as [|a l IH]; [reflexivity | exact IH]. Qed.

Lemma record_ret_run {A : Type} ev (v : A) r n c cn l :
  (record ev ;;; ret v) (mkWorld r n c cn l) =
  (Ok v, mkWorld r n c cn (l ++ [ev])).
Proof. reflexivity. Qed.

Lemma call_balanceOf_run t a r n c cn l :
  call (balanceOf t a) (mkWorld r n c cn l) =
  (Ok (VInt (1 + r n mod 10 ^ 18)),
   mkWorld r (S n) c cn
     (l ++ [EvCall "balanceOf" (VInt (1 + r n mod 10 ^ 18))])).
Proof. reflexivity. Qed.

Lemma call_decimals_run t r n c cn l :
  call (decimals t) (mkWorld r n c cn l) =
  (Ok (VInt 18), mkWorld r n c cn (l ++ [EvCall "decimals" (VInt 18)])).
Proof. reflexivity. Qed.

Lemma call_symbol_run t r n c cn l :
  call (symbol t) (mkWorld r n c cn l) =
  (Ok (VStr "TOK"),
   mkWorld r n c cn (l ++ [EvCall "symbol" (VStr "TOK")])).
Proof. reflexivity. Qed.

Lemma get_transaction_count_run a r n c cn l :
  get_transaction_count a (mkWorld r n c cn l) =
  (Ok (r n mod 21),
   mkWorld r (S n) c cn (l ++ [EvGetTransactionCount a (r n mod 21)])).
Proof. reflexivity. Qed.

Lemma get_block_timestamp_run r n c cn l :
  get_block_timestamp (mkWorld r n c cn l) =
  (Ok (c cn), mkWorld r n c (S cn) (l ++ [EvGetBlock (c cn)])).
Proof. reflexivity. Qed.

Lemma send_raw_transaction_run raw r n c cn l :
  send_raw_transaction raw (mkWorld r n c cn l) =
  (Ok (tx_hash_of (r n)),
   mkWorld r (S n) c cn (l ++ [EvSendRawTransaction raw (tx_hash_of (r n))])).
Proof.
  unfold send_raw_transaction.
  rewrite (bind_ok _ _ _ _ _ (fast_hex_run 8 _ _ _ _ _ ltac:(lia))).
  cbv beta. change (Z.to_nat (8 * 2)) with (2 * 8)%nat.
  cbn [drop2 String.append].
  rewrite bytes_fromhex_hex_fixed. reflexivity.
Qed.

Lemma lift_run {A : Type} (x : Result A) w : lift x w = (x, w).
Proof. reflexivity. Qed.

Lemma to_wei_five_gwei : _to_wei five "gwei" = Ok 5000000000.
Proof. vm_compute. reflexivity. Qed.

(** One step of a run: the head of the outer [bind] is resolved by the run
    lemma of the client operation it names. *)
Ltac run_step :=
  lazymatch goal with
  | |- bind (call (balanceOf _ _)) _ _ = _ =>
      rewrite (bind_ok _ _ _ _ _ (call_balanceOf_run _ _ _ _ _ _ _))
  | |- bind (call (decimals _)) _ _ = _ =>
      rewrite (bind_ok _ _ _ _ _ (call_decimals_run _ _ _ _ _ _))
  | |- bind (call (symbol _)) _ _ = _ =>
      rewrite (bind_ok _ _ _ _ _ (call_symbol_run _ _ _ _ _ _))
  | |- bind (get_transaction_count _) _ _ = _ =>
      rewrite (bind_ok _ _ _ _ _ (get_transaction_count_run _ _ _ _ _ _))
  | |- bind get_block_timestamp _ _ = _ =>
      rewrite (bind_ok _ _ _ _ _ (get_block_timestamp_run _ _ _ _ _))
  | |- bind (send_raw_transaction _) _ _ = _ =>
      rewrite (bind_ok _ _ _ _ _ (send_raw_transaction_run _ _ _ _ _ _))
  | |- bind (lift (_to_wei five "gwei")) _ _ = _ =>
      rewrite to_wei_five_gwei
  | |- bind (lift (Ok _)) _ _ = _ =>
      rewrite (bind_ok _ _ _ _ _ (lift_run _ _))
  | |- bind (bind (record _) (fun _ => ret _)) _ _ = _ =>
      rewrite (bind_ok _ _ _ _ _ (record_ret_run _ _ _ _ _ _ _))
  end;
  cbv beta.

Lemma swap_sell_run ADDRESS tok p w :
  swap_sell ADDRESS tok p w =
  match sell_amount_of (VInt (balance_read w)) p with
  | Ok v =>
      (Ok ("Sell Tx Sent: " ++ to_hex (tx_hash_of (nth_draw w 4)))%string,
       mkWorld (rng w) (5 + rng_next w) (clock w) (S (clock_next w))
         (calls w ++ sell_trace ADDRESS tok w v))
  | Raise x =>
      (Raise x,
       mkWorld (rng w) (S (rng_next w)) (clock w) (clock_next w)
         (calls w ++ [EvCall "balanceOf" (VInt (balance_read w));
                      EvCall "decimals" (VInt 18)]))
  end.
Proof.
  destruct w as [r n c cn l].
  unfold swap_sell, balance_read, nth_draw, next_timestamp, sell_trace.
  cbn [rng rng_next clock clock_next calls Nat.add]. cbv zeta.
  do 2 run_step.
  destruct (sell_amount_of (VInt (1 + r n mod 10 ^ 18)) p) as [v | x].
  - run_step.
    unfold approve, swapExactTokensForETH, build_transaction,
      sign_transaction.
    cbv zeta.
    repeat run_step.
    unfold ret. rewrite <- !app_assoc. reflexivity.
  - rewrite (bind_raise _ _ _ _ _ (lift_run _ _)).
    rewrite <- !app_assoc. reflexivity.
Qed.

Lemma swap_buy_run ADDRESS tok amt w :
  swap_buy ADDRESS tok amt w =
  match _to_wei amt "ether" with
  | Ok value =>
      (Ok ("Buy Tx Sent: " ++ to_hex (tx_hash_of (nth_draw w 1)))%string,
       mkWorld (rng w) (2 + rng_next w) (clock w) (S (clock_next w))
         (calls w ++ buy_trace_head ADDRESS tok w
                  ++ buy_trace_tail ADDRESS w value))
  | Raise x =>
      (Raise x,
       mkWorld (rng w) (rng_next w) (clock w) (S (clock_next w))
         (calls w ++ buy_trace_head ADDRESS tok w))
  end.
Proof.
  destruct w as [r n c cn l].
  unfold swap_buy, nth_draw, next_timestamp, buy_trace_head, buy_trace_tail.
  cbn [rng rng_next clock clock_next calls Nat.add].
  unfold swapExactETHForTokens, build_transaction, sign_transaction.
  cbv zeta.
  do 2 run_step.
  destruct (_to_wei amt "ether") as [value | x].
  - run_step.
    repeat run_step.
    unfold ret. rewrite <- !app_assoc. reflexivity.
  - rewrite (bind_raise _ _ _ _ _ (lift_run _ _)).
    rewrite <- !app_assoc. reflexivity.
Qed.

Lemma check_token_balance_run ADDRESS tok w :
  check_token_balance ADDRESS tok w =
  let w' :=
    mkWorld (rng w) (S (rng_next w)) (clock w) (clock_next w)
      (calls w ++ [EvCall "balanceOf" (VInt (balance_read w));
                   EvCall "decimals" (VInt 18);
                   EvCall "symbol" (VStr "TOK")]) in
  match display_units (VInt (balance_read w)) (VInt 18) with
  | Ok balance => (Ok (format_4f balance ++ " TOK")%string, w')
  | Raise x => (Raise x, w')
  end.
Proof.
  destruct w as [r n c cn l].
  unfold check_token_balance, balance_read, nth_draw.
  cbn [rng rng_next clock clock_next calls Nat.add]. cbv zeta.
  do 3 run_step.
  destruct (display_units (VInt (1 + r n mod 10 ^ 18)) (VInt 18)) as [b | x].
  - run_step.
    unfold ret. rewrite <- !app_assoc. reflexivity.
  - rewrite (bind_raise _ _ _ _ _ (lift_run _ _)).
    rewrite <- !app_assoc. reflexivity.
Qed.

(* ================================================================== *)
(** ** The arithmetic of the core functions *)

Lemma py_truediv_spec a b :
  0 < b -> Z.abs a < b * 2 ^ 1023 ->
  exists m e,
    py_truediv a b = Ok (Fin m e) /\
    (Qabs (F2Q m e - inject_Z a / inject_Z b)
       <= Qabs (inject_Z a / inject_Z b) * pow2 (-53) + pow2 (-1075))%Q /\
    (0 <= a -> 0 <= m).
Proof.
  intros Hb Ha. unfold py_truediv.
  destruct (Z.eqb_spec b 0) as [-> | _]; [lia|].
  set (x := (inject_Z a / inject_Z b)%Q).
  assert (0 < inject_Z b)%Q as HB by (rewrite <- (Zlt_Qlt 0); exact Hb).
  assert (x * inject_Z b == inject_Z a)%Q as Hx
    by (unfold x; field; lra).
  assert (Qabs x < pow2 1023)%Q as Hbound.
  { rewrite pow2_inject by lia.
    assert (inject_Z (Z.abs a) < inject_Z (b * 2 ^ 1023))%Q as H1
      by (rewrite <- Zlt_Qlt; exact Ha).
    rewrite inject_Z_mult in H1.
    assert (Qabs x * inject_Z b == inject_Z (Z.abs a))%Q as H2.
    { assert (inject_Z (Z.abs a) == Qabs (inject_Z a))%Q as E
        by (unfold inject_Z; apply Zabs_Qabs).
      rewrite E, <- Hx, Qabs_Qmult.
      rewrite (Qabs_pos (inject_Z b)) by lra. reflexivity. }
    apply Qnot_le_lt. intros Hc.
    assert (inject_Z (2 ^ 1023) * inject_Z b <= Qabs x * inject_Z b)%Q
      by (apply Qmult_le_compat_r; lra).
    lra. }
  destruct (fround_finite x Hbound) as (m & e & Hf & Herr & Hs & _).
  exists m, e. rewrite Hf. split; [reflexivity|]. split; [exact Herr|].
  intros Ha0. apply Hs.
  assert (0 <= inject_Z a)%Q by (rewrite <- (Zle_Qle 0); exact Ha0).
  apply Qnot_lt_le. intros Hc.
  assert (x * inject_Z b < 0 * inject_Z b)%Q
    by (apply Qmult_lt_compat_r; lra).
  lra.
Qed.

Lemma balance_read_range w : 1 <= balance_read w <= 10 ^ 18.
Proof.
  unfold balance_read.
  pose proof (Z.mod_pos_bound (nth_draw w 0) (10 ^ 18) ltac:(lia)). lia.
Qed.

Lemma count_range r : 0 <= r mod 21 <= 20.
Proof. pose proof (Z.mod_pos_bound r 21 ltac:(lia)). lia. Qed.

Lemma sell_amount_total b p :
  1 <= b <= 10 ^ 18 -> Z.abs p <= 10 ^ 280 ->
  exists v, sell_amount_of (VInt b) p = Ok v.
Proof.
  intros Hb Hp. unfold sell_amount_of.
  destruct (py_truediv_spec (b * p) 100) as (m & e & Hq & _); [lia| |].
  - rewrite Z.abs_mul. rewrite (Z.abs_eq b) by lia.
    apply Z.le_lt_trans with (10 ^ 18 * 10 ^ 280).
    + apply Z.mul_le_mono_nonneg; lia.
    + apply Z.ltb_lt. vm_compute. reflexivity.
  - rewrite Hq. cbn [rbind py_int]. eauto.
Qed.

(* ================================================================== *)
(** ** What each core function appends to the log *)

Lemma new_calls_swap_sell ADDRESS tok p w :
  new_calls (swap_sell ADDRESS tok p) w =
  match sell_amount_of (VInt (balance_read w)) p with
  | Ok v => sell_trace ADDRESS tok w v
  | Raise _ => [EvCall "balanceOf" (VInt (balance_read w));
                EvCall "decimals" (VInt 18)]
  end.
Proof.
  unfold new_calls. rewrite swap_sell_run.
  destruct (sell_amount_of (VInt (balance_read w)) p);
    cbn [snd calls]; apply skipn_length_app.
Qed.

Lemma new_calls_swap_buy ADDRESS tok amt w :
  new_calls (swap_buy ADDRESS tok amt) w =
  match _to_wei amt "ether" with
  | Ok value => buy_trace_head ADDRESS tok w ++ buy_trace_tail ADDRESS w value
  | Raise _ => buy_trace_head ADDRESS tok w
  end.
Proof.
  unfold new_calls. rewrite swap_buy_run.
  destruct (_to_wei amt "ether");
    cbn [snd calls]; apply skipn_length_app.
Qed.

Lemma swap_sell_in_range ADDRESS tok p w :
  Z.abs p <= 10 ^ 280 ->
  exists v,
    sell_amount_of (VInt (balance_read w)) p = Ok v /\
    swap_sell ADDRESS tok p w =
      (Ok ("Sell Tx Sent: " ++ to_hex (tx_hash_of (nth_draw w 4)))%string,
       mkWorld (rng w) (5 + rng_next w) (clock w) (S (clock_next w))
         (calls w ++ sell_trace ADDRESS tok w v)) /\
    new_calls (swap_sell ADDRESS tok p) w = sell_trace ADDRESS tok w v.
Proof.
  intros Hp.
  destruct (sell_amount_total (balance_read w) p (balance_read_range w) Hp)
    as [v Hv].
  exists v. rewrite new_calls_swap_sell, swap_sell_run, Hv. auto.
Qed.

Lemma percent_small p : 0 <= p <= 100 -> Z.abs p <= 10 ^ 280.
Proof.
  intros H. apply Z.le_trans with 100; [lia|].
  apply Z.leb_le. vm_compute. reflexivity.
Qed.

(* ================================================================== *)
(** ** Nonces of a sell (C1) *)

(** C1, as stated, fails: the two nonces of a sell need be neither one
    apart nor even distinct.  With a balance of 200 and both transaction
    counts read as 7, the approve and the sell-swap both carry nonce 7. *)
Lemma swap_sell_nonces_not_consecutive :
  ~ (forall ADDRESS tok p w a s,
        built_nonces (new_calls (swap_sell ADDRESS tok p) w) =
          [("approve"%string, VInt a);
           ("swapExactTokensForETH"%string, VInt s)] ->
        s = a + 1 \/ s <> a).
Proof.
  intros H.
  specialize (H "0xabc"%string "0xdead"%string 50 collide_world 7 7).
  destruct H as [Habs | Habs].
  - vm_compute. reflexivity.
  - discriminate Habs.
  - apply Habs. reflexivity.
Qed.

(** C1, amended: in every sell with a percentage in [0, 100], the approve
    transaction and the sell-swap transaction each carry the count returned
    by their own [get_transaction_count] read; the read for the swap (log
    position 9) comes after the approve submission has returned (position
    6); each count is whatever the client returns, a number in [0, 20] drawn
    independently of the other, and no local increment is applied. *)
Theorem swap_sell_nonces_fresh_reads ADDRESS tok p w :
  0 <= p <= 100 ->
  let l := new_calls (swap_sell ADDRESS tok p) w in
  let a := nth_draw w 1 mod 21 in
  let s := nth_draw w 3 mod 21 in
  built_nonces l = [("approve"%string, VInt a);
                    ("swapExactTokensForETH"%string, VInt s)] /\
  0 <= a <= 20 /\ 0 <= s <= 20 /\
  nth_error l 3 = Some (EvGetTransactionCount ADDRESS a) /\
  nth_error l 6 =
    Some (EvSendRawTransaction dummy_raw (tx_hash_of (nth_draw w 2))) /\
  nth_error l 9 = Some (EvGetTransactionCount ADDRESS s).
Proof.
  intros Hp l a s. subst l.
  destruct (swap_sell_in_range ADDRESS tok p w (percent_small p Hp))
    as (v & _ & _ & ->).
  repeat split; try reflexivity; apply count_range.
Qed.

Lemma swap_sell_nonces_fresh_reads_witness :
  built_nonces (new_calls (swap_sell "0xabc" "0xdead" 50) collide_world) =
    [("approve"%string, VInt 7); ("swapExactTokensForETH"%string, VInt 7)].
Proof.
  pose proof (swap_sell_nonces_fresh_reads "0xabc" "0xdead" 50 collide_world
                ltac:(lia)) as H.
  cbv zeta in H. destruct H as [H _]. exact H.
Defined.

(* ================================================================== *)
(** ** Approve before swap (C2) *)

(** C2: in every run of [swap_sell], any step that builds the sell-swap
    transaction (the router call, [build_transaction], its signing) and its
    submission come after the approve transaction was signed and after the
    submission call that follows that signing has returned. *)
Theorem swap_sell_approve_before_swap ADDRESS tok p w i :
  sell_swap_step (new_calls (swap_sell ADDRESS tok p) w) i ->
  approve_acknowledged_before (new_calls (swap_sell ADDRESS tok p) w) i.
Proof.
  rewrite new_calls_swap_sell.
  destruct (sell_amount_of (VInt (balance_read w)) p) as [v | x];
    unfold sell_trace; intros Hstep.
  - assert (7 < i)%nat as Hi.
    { destruct (Nat.lt_ge_cases 7 i) as [Hgt | Hle]; [exact Hgt | exfalso].
      destruct Hstep
        as [(ev & Hev & Hb) | (raw & h & j & tx & Hev & Hj & Hs & Ht)].
      - destruct i as [|[|[|[|[|[|[|[|i]]]]]]]]; [..|lia];
          cbn [nth_error] in Hev; injection Hev as <-; discriminate Hb.
      - destruct i as [|[|[|[|[|[|[|[|i]]]]]]]]; [..|lia];
          cbn [nth_error] in Hev; try discriminate Hev.
        destruct j as [|[|[|[|[|[|j]]]]]]; [..|lia];
          cbn [nth_error] in Hs; try discriminate Hs.
        injection Hs as <-. discriminate Ht. }
    exists 5%nat, 6%nat, (approve_tx ADDRESS v (nth_draw w 1 mod 21)),
      dummy_raw, (tx_hash_of (nth_draw w 2)).
    repeat split; try reflexivity; lia.
  - exfalso.
    destruct Hstep
      as [(ev & Hev & Hb) | (raw & h & j & tx & Hev & Hj & Hs & Ht)].
    + destruct i as [|[|i]]; cbn [nth_error] in Hev;
        [injection Hev as <-; discriminate Hb ..|].
      destruct i; discriminate Hev.
    + destruct i as [|[|i]]; cbn [nth_error] in Hev;
        [discriminate Hev ..|].
      destruct i; discriminate Hev.
Qed.

Lemma swap_sell_approve_before_swap_witness :
  approve_acknowledged_before
    (new_calls (swap_sell "0xabc" "0xdead" 50) collide_world) 10.
Proof.
  apply swap_sell_approve_before_swap.
  left. eexists. split; [vm_compute; reflexivity | reflexivity].
Defined.

(* ================================================================== *)
(** ** Percentages outside [0, 100] (C3) *)

(** C3, as stated, fails: a percentage outside [0, 100] neither makes the
    call fail nor keeps it from reading the chain.  With percentage 150 and
    a balance of 200 the call returns normally, after five chain reads and
    two submissions. *)
Lemma swap_sell_accepts_percentage_150 :
  ~ (forall ADDRESS tok p w,
        p < 0 \/ 100 < p ->
        (exists x, fst (swap_sell ADDRESS tok p w) = Raise x) \/
        chain_reads (new_calls (swap_sell ADDRESS tok p) w) = 0%nat).
Proof.
  intros H.
  destruct (H "0xabc"%string "0xdead"%string 150 collide_world ltac:(lia))
    as [(x & Hr) | Hn].
  - vm_compute in Hr. discriminate Hr.
  - vm_compute in Hn. discriminate Hn.
Qed.

(** C3, amended: [swap_sell] does not check the percentage.  For every
    percentage outside [0, 100] (of magnitude at most 10^280, so that the
    quotient fits a float) it reads the balance and the decimals first,
    takes [int(balance * percentage / 100)] as the sell amount, goes through
    the whole approve and swap sequence and returns the swap's hash. *)
Theorem swap_sell_no_percentage_check ADDRESS tok p w :
  p < 0 \/ 100 < p -> Z.abs p <= 10 ^ 280 ->
  exists v,
    sell_amount_of (VInt (balance_read w)) p = Ok v /\
    fst (swap_sell ADDRESS tok p w) =
      Ok ("Sell Tx Sent: " ++ to_hex (tx_hash_of (nth_draw w 4)))%string /\
    new_calls (swap_sell ADDRESS tok p) w = sell_trace ADDRESS tok w v /\
    chain_reads (new_calls (swap_sell ADDRESS tok p) w) = 5%nat.
Proof.
  intros _ Hp.
  destruct (swap_sell_in_range ADDRESS tok p w Hp) as (v & Hv & Hrun & Hl).
  exists v. rewrite Hrun, Hl. repeat split; try reflexivity. exact Hv.
Qed.

Lemma swap_sell_no_percentage_check_witness :
  exists v,
    sell_amount_of (VInt (balance_read collide_world)) 150 = Ok v /\
    fst (swap_sell "0xabc" "0xdead" 150 collide_world) =
      Ok ("Sell Tx Sent: "
            ++ to_hex (tx_hash_of (nth_draw collide_world 4)))%string /\
    new_calls (swap_sell "0xabc" "0xdead" 150) collide_world =
      sell_trace "0xabc" "0xdead" collide_world v /\
    chain_reads (new_calls (swap_sell "0xabc" "0xdead" 150) collide_world)
      = 5%nat.
Proof.
  apply swap_sell_no_percentage_check.
  - right. lia.
  - apply Z.leb_le. vm_compute. reflexivity.
Defined.

(* ================================================================== *)
(** ** The sell amount (C4) *)

(** C4 at balance 10^18 - 1 and percentage 100: the floor of
    [balance * 100 / 100] is the balance, 999999999999999999, but the
    quotient is taken in floating point and the sell amount approved and
    swapped is 1000000000000000000, one unit more than the balance read. *)
Theorem sell_amount_exceeds_balance :
  balance_read full_balance_world = 10 ^ 18 - 1 /\
  (10 ^ 18 - 1) * 100 / 100 = 10 ^ 18 - 1 /\
  sell_amount_of (VInt (10 ^ 18 - 1)) 100 = Ok (10 ^ 18) /\
  new_calls (swap_sell "0xabc" "0xdead" 100) full_balance_world =
    sell_trace "0xabc" "0xdead" full_balance_world (10 ^ 18).
Proof.
  assert (sell_amount_of (VInt (10 ^ 18 - 1)) 100 = Ok (10 ^ 18)) as Hs
    by (vm_compute; reflexivity).
  assert (balance_read full_balance_world = 10 ^ 18 - 1) as Hb
    by (vm_compute; reflexivity).
  split; [exact Hb|]. split; [vm_compute; reflexivity|].
  split; [exact Hs|].
  rewrite new_calls_swap_sell, Hb, Hs. reflexivity.
Qed.

(* ================================================================== *)
(** ** Deadlines, paths and minimum out (C5, C6, C7) *)

Lemma reaches_router_sell t p w :
  Z.abs p <= 10 ^ 280 -> reaches_router (Sell t p) w = true.
Proof.
  intros Hp. cbn [reaches_router].
  destruct (sell_amount_total (balance_read w) p (balance_read_range w) Hp)
    as [v ->].
  reflexivity.
Qed.

Lemma run_op_deadline ADDRESS op w :
  deadlines (new_calls (run_op ADDRESS op) w) =
    (if reaches_router op w then [next_timestamp w + 1200] else []) /\
  block_reads (new_calls (run_op ADDRESS op) w) =
    (if reaches_router op w then [next_timestamp w] else []) /\
  (reaches_router op w = true ->
   clock (snd (run_op ADDRESS op w)) = clock w /\
   clock_next (snd (run_op ADDRESS op w)) = S (clock_next w)).
Proof.
  destruct op as [t a | t p]; cbn [run_op reaches_router].
  - rewrite new_calls_swap_buy, swap_buy_run.
    destruct (_to_wei a "ether");
      (split; [reflexivity | split; [reflexivity | intros _; split; reflexivity]]).
  - rewrite new_calls_swap_sell, swap_sell_run.
    destruct (sell_amount_of (VInt (balance_read w)) p);
      (split; [reflexivity | split; [reflexivity |]]).
    + intros _. split; reflexivity.
    + discriminate.
Qed.

(** C5: every buy and every sell, whatever the amount or the percentage,
    passes the router no deadline other than [t + 1200], where [t] is the
    block timestamp the operation reads itself.  An operation that reaches
    its router call passes exactly one deadline: every buy does, and every
    sell whose amount can be computed, among them all sells with
    [|percentage| <= 10^280] (a sell whose amount overflows builds no swap
    and has no deadline).  An operation that follows another reads the next
    clock value, so when the two timestamps differ the two deadlines
    differ. *)
Theorem swap_deadline_fresh ADDRESS op1 op2 w :
  let w1 := snd (run_op ADDRESS op1 w) in
  let l1 := new_calls (run_op ADDRESS op1) w in
  let l2 := new_calls (run_op ADDRESS op2) w1 in
  deadlines l1 =
    (if reaches_router op1 w then [next_timestamp w + 1200] else []) /\
  deadlines l2 =
    (if reaches_router op2 w1 then [next_timestamp w1 + 1200] else []) /\
  deadlines l1 = map (fun t => t + 1200) (block_reads l1) /\
  deadlines l2 = map (fun t => t + 1200) (block_reads l2) /\
  (reaches_router op1 w = true ->
   next_timestamp w1 = clock w (S (clock_next w))) /\
  (forall x y,
      In x (deadlines l1) -> In y (deadlines l2) ->
      next_timestamp w <> next_timestamp w1 -> x <> y) /\
  (forall t a w0, reaches_router (Buy t a) w0 = true) /\
  (forall t p w0, Z.abs p <= 10 ^ 280 -> reaches_router (Sell t p) w0 = true).
Proof.
  intros w1 l1 l2.
  destruct (run_op_deadline ADDRESS op1 w) as (E1 & B1 & C1).
  destruct (run_op_deadline ADDRESS op2 w1) as (E2 & B2 & _).
  fold l1 in E1, B1. fold l2 in E2, B2.
  split; [exact E1|]. split; [exact E2|].
  split; [rewrite E1, B1; destruct (reaches_router op1 w); reflexivity|].
  split; [rewrite E2, B2; destruct (reaches_router op2 w1); reflexivity|].
  split; [|split; [|split]].
  - intros Hr. destruct (C1 Hr) as [Ec En].
    unfold next_timestamp, w1. rewrite Ec, En. reflexivity.
  - intros x y Hx Hy Hne. rewrite E1 in Hx. rewrite E2 in Hy.
    destruct (reaches_router op1 w); [|destruct Hx].
    destruct (reaches_router op2 w1); [|destruct Hy].
    destruct Hx as [<- | []]. destruct Hy as [<- | []]. lia.
  - reflexivity.
  - intros t p w0. apply reaches_router_sell.
Qed.

Lemma swap_deadline_fresh_witness :
  deadlines
    (new_calls (run_op "0xabc" (Buy "0xdead" (Fin 5764607523034235 (-59))))
       two_ticks_world) = [2200] /\
  deadlines
    (new_calls (run_op "0xabc" (Sell "0xdead" 150))
       (snd (run_op "0xabc" (Buy "0xdead" (Fin 5764607523034235 (-59)))
               two_ticks_world))) = [2212] /\
  2200 <> 2212.
Proof.
  assert (Z.abs 150 <= 10 ^ 280) as H150
    by (apply Z.leb_le; vm_compute; reflexivity).
  destruct (swap_deadline_fresh "0xabc"
              (Buy "0xdead" (Fin 5764607523034235 (-59)))
              (Sell "0xdead" 150) two_ticks_world)
    as (E1 & E2 & _ & _ & Hc & Hd & _ & Hs).
  rewrite (Hs "0xdead"%string 150 _ H150) in E2.
  rewrite (Hc eq_refl) in E2, Hd.
  split; [rewrite E1; reflexivity|].
  split; [rewrite E2; reflexivity|].
  apply Hd.
  - rewrite E1. left. reflexivity.
  - rewrite E2. left. reflexivity.
  - vm_compute. discriminate.
Defined.

(** C6: every buy swap is built with the path [WETH, token].  A sell,
    whatever its percentage, passes the router no path other than
    [token, WETH]; it passes exactly that one whenever it reaches its
    router call, which every sell with [|percentage| <= 10^280] does. *)
Theorem swap_paths ADDRESS tok w :
  (forall amt,
      buy_paths (new_calls (swap_buy ADDRESS tok amt) w) =
        [[WETH_ADDRESS; tok]] /\
      sell_paths (new_calls (swap_buy ADDRESS tok amt) w) = []) /\
  (forall p,
      sell_paths (new_calls (swap_sell ADDRESS tok p) w) =
        (if reaches_router (Sell tok p) w
         then [[tok; WETH_ADDRESS]] else []) /\
      (forall path,
          In path (sell_paths (new_calls (swap_sell ADDRESS tok p) w)) ->
          path = [tok; WETH_ADDRESS]) /\
      buy_paths (new_calls (swap_sell ADDRESS tok p) w) = []) /\
  (forall p,
      Z.abs p <= 10 ^ 280 ->
      sell_paths (new_calls (swap_sell ADDRESS tok p) w) =
        [[tok; WETH_ADDRESS]]).
Proof.
  assert (forall p,
             sell_paths (new_calls (swap_sell ADDRESS tok p) w) =
               (if reaches_router (Sell tok p) w
                then [[tok; WETH_ADDRESS]] else []) /\
             buy_paths (new_calls (swap_sell ADDRESS tok p) w) = []) as Hsell.
  { intros p. rewrite new_calls_swap_sell. cbn [reaches_router].
    destruct (sell_amount_of (VInt (balance_read w)) p); split; reflexivity. }
  split; [|split].
  - intros amt. rewrite new_calls_swap_buy.
    destruct (_to_wei amt "ether"); split; reflexivity.
  - intros p. destruct (Hsell p) as [Es Eb].
    split; [exact Es|]. split; [|exact Eb].
    intros path Hin. rewrite Es in Hin.
    destruct (reaches_router (Sell tok p) w); [|destruct Hin].
    destruct Hin as [<- | []]. reflexivity.
  - intros p Hp. destruct (Hsell p) as [-> _].
    rewrite (reaches_router_sell tok p w Hp). reflexivity.
Qed.

Lemma swap_paths_witness :
  sell_paths (new_calls (swap_sell "0xabc" "0xdead" 150) collide_world) =
    [["0xdead"%string; WETH_ADDRESS]] /\
  sell_paths (new_calls (swap_sell "0xabc" "0xdead" (-75)) collide_world) =
    [["0xdead"%string; WETH_ADDRESS]].
Proof.
  destruct (swap_paths "0xabc" "0xdead" collide_world) as (_ & _ & H).
  split; apply H; apply Z.leb_le; vm_compute; reflexivity.
Defined.

(** C7: every buy swap is built with a minimum out of 0.  A sell, whatever
    its percentage, passes the router no minimum out other than 0, and
    passes exactly one whenever it reaches its router call, which every
    sell with [|percentage| <= 10^280] does.  The router functions take a
    zero minimum out, like any other, without raising. *)
Theorem swap_min_out_zero ADDRESS tok w :
  (forall amt, min_outs (new_calls (swap_buy ADDRESS tok amt) w) = [0]) /\
  (forall p,
      min_outs (new_calls (swap_sell ADDRESS tok p) w) =
        (if reaches_router (Sell tok p) w then [0] else []) /\
      (forall m,
          In m (min_outs (new_calls (swap_sell ADDRESS tok p) w)) ->
          m = 0)) /\
  (forall p, Z.abs p <= 10 ^ 280 ->
             min_outs (new_calls (swap_sell ADDRESS tok p) w) = [0]) /\
  (forall c path to d w', exists f,
      fst (swapExactETHForTokens c 0 path to d w') = Ok f) /\
  (forall c amountIn path to d w', exists f,
      fst (swapExactTokensForETH c amountIn 0 path to d w') = Ok f).
Proof.
  assert (forall p,
             min_outs (new_calls (swap_sell ADDRESS tok p) w) =
               (if reaches_router (Sell tok p) w then [0] else [])) as Hsell.
  { intros p. rewrite new_calls_swap_sell. cbn [reaches_router].
    destruct (sell_amount_of (VInt (balance_read w)) p); reflexivity. }
  split; [|split; [|split; [|split]]].
  - intros amt. rewrite new_calls_swap_buy.
    destruct (_to_wei amt "ether"); reflexivity.
  - intros p. split; [apply Hsell|].
    intros m Hin. rewrite Hsell in Hin.
    destruct (reaches_router (Sell tok p) w); [|destruct Hin].
    destruct Hin as [<- | []]. reflexivity.
  - intros p Hp. rewrite Hsell, (reaches_router_sell tok p w Hp).
    reflexivity.
  - intros. eexists. reflexivity.
  - intros. eexists. reflexivity.
Qed.

Lemma swap_min_out_zero_witness :
  min_outs (new_calls (swap_sell "0xabc" "0xdead" 150) collide_world) = [0] /\
  min_outs (new_calls (swap_sell "0xabc" "0xdead" (-75)) collide_world) = [0].
Proof.
  destruct (swap_min_out_zero "0xabc" "0xdead" collide_world)
    as (_ & _ & H & _).
  split; apply H; apply Z.leb_le; vm_compute; reflexivity.
Defined.

(* ================================================================== *)
(** ** Addresses (C9) *)

(** C9, as stated, fails: two addresses that differ only in letter case are
    not mapped to one canonical address. *)
Lemma to_checksum_address_keeps_case :
  ~ (forall a b, lower a = lower b ->
                 to_checksum_address a = to_checksum_address b).
Proof.
  intros H.
  specialize (H "0xAB"%string "0xab"%string eq_refl).
  discriminate H.
Qed.

(** C9, amended: [to_checksum_address] returns its argument unchanged, so
    two addresses have the same image exactly when they are the same
    string, letter case included; the swap paths carry the token address
    as it was given. *)
Theorem to_checksum_address_identity :
  (forall a, to_checksum_address a = a) /\
  (forall a b, to_checksum_address a = to_checksum_address b <-> a = b) /\
  (forall ADDRESS tok amt w,
      buy_paths (new_calls (swap_buy ADDRESS tok amt) w) =
        [[WETH_ADDRESS; tok]]).
Proof.
  split; [reflexivity|]. split; [intros a b; reflexivity|].
  intros ADDRESS tok amt w. rewrite new_calls_swap_buy.
  destruct (_to_wei amt "ether"); reflexivity.
Qed.

(* ================================================================== *)
(** ** Display units and the balance string (C10) *)

Lemma pow2_m53 : (pow2 (-53) == 1 # 9007199254740992)%Q.
Proof. vm_compute. reflexivity. Qed.

Lemma pow2_m1075 : (pow2 (-1075) <= 1 # 1000000000000000000000000000000)%Q.
Proof. vm_compute. discriminate. Qed.

Lemma Qdiv_mul a b :
  0 < b -> (inject_Z a / inject_Z b * inject_Z b == inject_Z a)%Q.
Proof.
  intros Hb.
  assert (0 < inject_Z b)%Q by (rewrite <- (Zlt_Qlt 0); exact Hb).
  field. lra.
Qed.

Lemma F2Q_nonneg m e : 0 <= m -> (0 <= F2Q m e)%Q.
Proof.
  intros Hm. unfold F2Q. apply Qmult_le_0_compat.
  - rewrite <- (Zle_Qle 0). exact Hm.
  - apply Qlt_le_weak, pow2_pos.
Qed.

Lemma display_units_spec raw :
  1 <= raw <= 10 ^ 18 ->
  exists m e,
    display_units (VInt raw) (VInt 18) = Ok (Fin m e) /\ 0 <= m /\
    (Qabs (F2Q m e - inject_Z raw / inject_Z (10 ^ 18))
       <= 1 # 4503599627370496)%Q.
Proof.
  intros Hr. unfold display_units.
  assert (1 < 2 ^ 1023) as Hbig by (apply Z.ltb_lt; vm_compute; reflexivity).
  destruct (py_truediv_spec raw (10 ^ 18)) as (m & e & Hq & Herr & Hs);
    [lia | rewrite Z.abs_eq by lia; nia |].
  exists m, e. split; [exact Hq|]. split; [apply Hs; lia|].
  pose proof (Qdiv_mul raw (10 ^ 18) ltac:(lia)) as Hx.
  set (x := (inject_Z raw / inject_Z (10 ^ 18))%Q) in *.
  assert (0 <= x /\ x <= 1)%Q as [Hx0 Hx1].
  { assert (inject_Z 1 <= inject_Z raw)%Q by (rewrite <- Zle_Qle; lia).
    assert (inject_Z raw <= inject_Z (10 ^ 18))%Q by (rewrite <- Zle_Qle; lia).
    change (inject_Z (10 ^ 18)) with (1000000000000000000 # 1)%Q in *.
    change (inject_Z 1) with 1%Q in *.
    split; lra. }
  rewrite (Qabs_pos x Hx0) in Herr.
  rewrite pow2_m53 in Herr. pose proof pow2_m1075.
  apply Qabs_Qle_condition in Herr. apply Qabs_Qle_condition.
  split; lra.
Qed.

Lemma round4_spec m e :
  0 <= m ->
  0 <= round4 m e /\
  (Qabs (inject_Z (round4 m e) / 10000 - F2Q m e) <= 1 # 20000)%Q.
Proof.
  intros Hm. unfold round4.
  pose proof (F2Q_nonneg m e Hm) as HF.
  pose proof (Qabs_pos _ HF) as Ha.
  set (y := (Qabs (F2Q m e) * 10000)%Q).
  assert (y == F2Q m e * 10000)%Q as Hy by (unfold y; rewrite Ha; reflexivity).
  split.
  - apply rne_ge. change (inject_Z 0) with 0%Q. lra.
  - pose proof (rne_spec y) as Hr.
    apply Qabs_Qle_condition in Hr. apply Qabs_Qle_condition.
    change (inject_Z (rne y) / 10000)%Q
      with (inject_Z (rne y) * (1 # 10000))%Q.
    split; lra.
Qed.

Lemma frac4_length k : String.length (frac4 k) = 4%nat.
Proof. reflexivity. Qed.

Lemma digit_value_digit d : 0 <= d < 10 -> digit_value (digit d) = Some d.
Proof.
  intros H.
  assert (d = 0 \/ d = 1 \/ d = 2 \/ d = 3 \/ d = 4 \/ d = 5 \/ d = 6 \/ d = 7 \/
          d = 8 \/ d = 9) as Hd by lia.
  repeat (destruct Hd as [-> | Hd]; [reflexivity|]). subst d. reflexivity.
Qed.

(** The four fraction digits read back as the number they were made from. *)
Lemma decimal_value_frac4 k :
  0 <= k < 10000 -> decimal_value (frac4 k) = Some k.
Proof.
  intros Hk. unfold decimal_value, frac4. cbn [decimal_value_from].
  rewrite !digit_value_digit by (apply Z.mod_pos_bound; lia).
  f_equal.
  pose proof (Z.div_mod k 10 ltac:(lia)) as H1.
  pose proof (Z.div_mod (k / 10) 10 ltac:(lia)) as H2.
  pose proof (Z.div_mod (k / 10 / 10) 10 ltac:(lia)) as H3.
  rewrite (Z.div_div k 10 10) in H2, H3 by lia.
  rewrite (Z.div_div k (10 * 10) 10) in H3 by lia.
  change (10 * 10) with 100 in *. change (100 * 10) with 1000 in *.
  assert (k / 1000 < 10) by (apply Z.div_lt_upper_bound; lia).
  assert (0 <= k / 1000) by (apply Z.div_pos; lia).
  rewrite (Z.mod_small (k / 1000) 10) by lia.
  lia.
Qed.

(** A balance of at most 10^18 base units shows as at most 1.0000. *)
Lemma display_round4_range raw m e :
  1 <= raw <= 10 ^ 18 -> 0 <= m ->
  (Qabs (F2Q m e - inject_Z raw / inject_Z (10 ^ 18))
     <= 1 # 4503599627370496)%Q ->
  0 <= round4 m e <= 10000.
Proof.
  intros Hb Hm Herr.
  split; [apply (round4_spec m e Hm)|].
  unfold round4. apply rne_lt.
  rewrite (Qabs_pos _ (F2Q_nonneg m e Hm)).
  pose proof (Qdiv_mul raw (10 ^ 18) ltac:(lia)) as Hx.
  set (x := (inject_Z raw / inject_Z (10 ^ 18))%Q) in *.
  pose proof (inject_Z_le raw (10 ^ 18) ltac:(lia)) as Hle.
  change (inject_Z (10 ^ 18)) with (1000000000000000000 # 1)%Q in *.
  change (inject_Z 10000) with 10000%Q.
  apply Qabs_Qle_condition in Herr. lra.
Qed.

(** C10, as stated, fails: the amount printed is not always the quotient
    balance / 10^decimals rounded to four fraction digits.  With a balance
    of 15649999999999999 base units the quotient is 0.015649999999999999,
    whose nearest four-digit value is 0.0156 under any rule for ties; the
    float quotient is the binary64 next to 0.01565, and the function
    returns "0.0157 TOK". *)
Lemma check_token_balance_not_exact_quotient :
  ~ (forall ADDRESS tok w, exists N,
        (Qabs (inject_Z N
               - inject_Z (balance_read w) / inject_Z (10 ^ 18) * 10000)
           <= 1 # 2)%Q /\
        fst (check_token_balance ADDRESS tok w) =
          Ok (render_4 N ++ " TOK")%string).
Proof.
  intros H.
  destruct (H "0xabc"%string "0xdead"%string rounding_world)
    as (N & Hn & Hs).
  assert (balance_read rounding_world = 15649999999999999) as Hb
    by (vm_compute; reflexivity).
  rewrite Hb in Hn.
  assert (inject_Z 15649999999999999 / inject_Z (10 ^ 18) * 10000
          == 15649999999999999 # 100000000000000)%Q as Hq
    by (vm_compute; reflexivity).
  rewrite Hq in Hn. apply Qabs_Qle_condition in Hn. destruct Hn as [Hlo Hhi].
  assert (inject_Z 155 < inject_Z N)%Q as H1
    by (change (inject_Z 155) with (155 # 1)%Q; lra).
  assert (inject_Z N < inject_Z 157)%Q as H2
    by (change (inject_Z 157) with (157 # 1)%Q; lra).
  rewrite <- Zlt_Qlt in H1, H2.
  assert (N = 156) as -> by lia.
  vm_compute in Hs. discriminate Hs.
Qed.

(** C10, amended: [check_token_balance] returns ["<amount> TOK"], where the
    amount is the binary64 quotient of the balance read by 10^18 (Python's
    true division, within 2^-52 of the exact quotient), rounded to the
    nearest ten-thousandth and written as "0" or "1", a point and exactly
    four decimal digits, which read back as that number of
    ten-thousandths.  The value printed lies within 0.000051 of
    balance / 10^18 and within one unit in the last place of the exact
    quotient rounded to four digits.  A balance of 1000 prints as
    "0.0000 TOK" and a balance of 15649999999999999 as "0.0157 TOK". *)
Theorem check_token_balance_format ADDRESS tok :
  (forall w, exists m e f,
      let q := (inject_Z (balance_read w) / inject_Z (10 ^ 18))%Q in
      let N := round4 m e in
      display_units (VInt (balance_read w)) (VInt 18) = Ok (Fin m e) /\
      (Qabs (F2Q m e - q) <= 1 # 4503599627370496)%Q /\
      (Qabs (inject_Z N - F2Q m e * 10000) <= 1 # 2)%Q /\
      0 <= N <= 10000 /\
      fst (check_token_balance ADDRESS tok w) =
        Ok (((if (N <? 10000)%Z then "0." else "1.") ++ f) ++ " TOK")%string /\
      String.length f = 4%nat /\
      decimal_value f = Some (N mod 10000) /\
      (Qabs (inject_Z N / 10000 - q) <= 51 # 1000000)%Q /\
      Z.abs (N - rne (q * 10000)) <= 1) /\
  (forall w, balance_read w = 1000 ->
             fst (check_token_balance ADDRESS tok w) =
               Ok "0.0000 TOK"%string) /\
  (forall w, balance_read w = 15649999999999999 ->
             fst (check_token_balance ADDRESS tok w) =
               Ok "0.0157 TOK"%string).
Proof.
  split; [|split].
  - intros w.
    destruct (display_units_spec _ (balance_read_range w))
      as (m & e & Hd & Hm & Herr).
    destruct (display_round4_range _ m e (balance_read_range w) Hm Herr)
      as [Hn0 Hn1].
    destruct (round4_spec m e Hm) as [_ Hr].
    exists m, e, (frac4 (round4 m e mod 10000)). cbv zeta.
    set (q := (inject_Z (balance_read w) / inject_Z (10 ^ 18))%Q) in *.
    set (N := round4 m e) in *.
    assert (Qabs (inject_Z N / 10000 - q) <= 51 # 1000000)%Q as Hacc.
    { apply Qabs_Qle_condition in Herr, Hr. apply Qabs_Qle_condition.
      change (inject_Z N / 10000)%Q with (inject_Z N * (1 # 10000))%Q in *.
      split; lra. }
    split; [exact Hd|]. split; [exact Herr|]. split; [|split; [lia|]].
    { apply Qabs_Qle_condition in Hr. apply Qabs_Qle_condition.
      change (inject_Z N / 10000)%Q with (inject_Z N * (1 # 10000))%Q in *.
      split; lra. }
    split; [|split; [apply frac4_length|split; [|split; [exact Hacc|]]]].
    + rewrite check_token_balance_run, Hd. cbv zeta. cbn [fst format_4f].
      fold N. destruct (Z.ltb_spec m 0) as [Hneg | _]; [lia|].
      destruct (Z.ltb_spec N 10000) as [Hlt | Hge].
      * rewrite (Z.div_small N 10000) by lia. reflexivity.
      * assert (N = 10000) as -> by lia. reflexivity.
    + apply decimal_value_frac4. apply Z.mod_pos_bound. lia.
    + pose proof (rne_spec (q * 10000)) as Hx.
      set (R := rne (q * 10000)) in *.
      apply Qabs_Qle_condition in Hacc, Hx.
      change (inject_Z N / 10000)%Q with (inject_Z N * (1 # 10000))%Q in *.
      assert (inject_Z N < inject_Z (R + 2))%Q as Hup
        by (rewrite inject_Z_plus; change (inject_Z 2) with 2%Q; lra).
      assert (inject_Z R < inject_Z (N + 2))%Q as Hdown
        by (rewrite inject_Z_plus; change (inject_Z 2) with 2%Q; lra).
      rewrite <- Zlt_Qlt in Hup, Hdown. lia.
  - intros w Hw.
    rewrite check_token_balance_run, Hw. vm_compute. reflexivity.
  - intros w Hw.
    rewrite check_token_balance_run, Hw. vm_compute. reflexivity.
Qed.

Lemma check_token_balance_format_witness :
  fst (check_token_balance "0xabc" "0xdead" thousand_world) =
    Ok "0.0000 TOK"%string /\
  fst (check_token_balance "0xabc" "0xdead" rounding_world) =
    Ok "0.0157 TOK"%string.
Proof.
  destruct (check_token_balance_format "0xabc" "0xdead") as (_ & H1 & H2).
  split; [apply H1 | apply H2]; vm_compute; reflexivity.
Defined.

(* ================================================================== *)
(** ** Base units and back (C8) *)

Lemma scaled_int_spec m e K M E :
  0 <= m ->
  (F2Q m e * inject_Z K < pow2 1023)%Q ->
  0 <= K ->
  float_of_int K = Ok (Fin M E) -> (F2Q M E == inject_Z K)%Q ->
  exists n,
    rbind (fmul_int (Fin m e) K) py_int = Ok n /\ 0 <= n /\
    let X := (F2Q m e * inject_Z K)%Q in
    (inject_Z n <= X + X * (1 # 9007199254740992)
                   + (1 # 1000000000000000000000000000000))%Q /\
    (X - X * (1 # 9007199254740992)
       - (1 # 1000000000000000000000000000000) - 1 < inject_Z n)%Q.
Proof.
  intros Hm Hb HK Hf HME.
  unfold fmul_int. rewrite Hf. cbn [rbind fmul].
  pose proof (F2Q_nonneg m e Hm) as HF.
  assert (0 <= inject_Z K)%Q as HK' by (rewrite <- (Zle_Qle 0); exact HK).
  set (x := (F2Q m e * F2Q M E)%Q).
  assert (x == F2Q m e * inject_Z K)%Q as Hx
    by (unfold x; rewrite HME; reflexivity).
  assert (0 <= x)%Q as Hx0
    by (rewrite Hx; apply Qmult_le_0_compat; assumption).
  assert (Qabs x < pow2 1023)%Q as Hxb
    by (rewrite (Qabs_pos x Hx0), Hx; exact Hb).
  destruct (fround_finite x Hxb) as (m1 & e1 & Hr & Herr & Hs & _).
  rewrite Hr. cbn [py_int].
  destruct (trunc_spec m1 e1 (Hs Hx0)) as (Hn0 & Hlo & Hhi).
  exists (trunc m1 e1). split; [reflexivity|]. split; [exact Hn0|].
  cbv zeta.
  rewrite (Qabs_pos x Hx0), pow2_m53 in Herr. pose proof pow2_m1075.
  apply Qabs_Qle_condition in Herr.
  set (X := (F2Q m e * inject_Z K)%Q) in *.
  split; lra.
Qed.

Lemma to_wei_small m e unit k :
  unit_exponent unit k -> 0 <= m -> (F2Q m e <= 100000000000)%Q ->
  exists n,
    _to_wei (Fin m e) unit = Ok n /\ 0 <= n /\
    let X := (F2Q m e * inject_Z (10 ^ k))%Q in
    (inject_Z n <= X + X * (1 # 9007199254740992)
                   + (1 # 1000000000000000000000000000000))%Q /\
    (X - X * (1 # 9007199254740992)
       - (1 # 1000000000000000000000000000000) - 1 < inject_Z n)%Q.
Proof.
  intros Hu Hm Hx.
  pose proof (F2Q_nonneg m e Hm) as HF.
  assert (inject_Z (10 ^ 29) < pow2 1023)%Q as Hbig
    by (vm_compute; reflexivity).
  destruct Hu as [[-> ->] | [-> ->]].
  - change (_to_wei (Fin m e) "ether")
      with (rbind (fmul_int (Fin m e) (10 ^ 18)) py_int).
    apply scaled_int_spec with (M := 7812500000000000) (E := 7);
      [exact Hm | | lia | vm_compute; reflexivity | vm_compute; reflexivity].
    change (inject_Z (10 ^ 29)) with (100000000000000000000000000000 # 1)%Q
      in Hbig.
    change (inject_Z (10 ^ 18)) with (1000000000000000000 # 1)%Q.
    lra.
  - change (_to_wei (Fin m e) "gwei")
      with (rbind (fmul_int (Fin m e) (10 ^ 9)) py_int).
    apply scaled_int_spec with (M := 8388608000000000) (E := -23);
      [exact Hm | | lia | vm_compute; reflexivity | vm_compute; reflexivity].
    change (inject_Z (10 ^ 29)) with (100000000000000000000000000000 # 1)%Q
      in Hbig.
    change (inject_Z (10 ^ 9)) with (1000000000 # 1)%Q.
    lra.
Qed.

(** C8, as stated, fails: 6550770429955353.0 is a non-negative finite
    float; converted to base units with exponent 18 and back it comes out
    as 6550770429955354.0, a whole unit away, and so does the value printed
    with four fraction digits. *)
Lemma round_trip_drifts_for_large_amounts :
  ~ (forall m e unit k,
        unit_exponent unit k -> binary64 (Fin m e) = true -> 0 <= m ->
        exists m' e',
          round_trip (Fin m e) unit k = Ok (Fin m' e') /\
          ((Qabs (F2Q m' e' - F2Q m e) <= 1 # 10000)%Q \/
           (Qabs (inject_Z (round4 m' e') / 10000 - F2Q m e)
              <= 1 # 10000)%Q)).
Proof.
  intros H.
  destruct (H 6550770429955353 0 "ether"%string 18)
    as (m' & e' & Hrt & Hclose).
  - left. split; reflexivity.
  - reflexivity.
  - lia.
  - assert (round_trip (Fin 6550770429955353 0) "ether" 18
            = Ok (Fin 6550770429955354 0)) as Hv by (vm_compute; reflexivity).
    rewrite Hv in Hrt. injection Hrt as <- <-.
    destruct Hclose as [Hc | Hc]; vm_compute in Hc; apply Hc; reflexivity.
Qed.

(** C8, amended: for every non-negative amount of at most 10^11 units, with
    the unit "ether" and 18 decimals or the unit "gwei" and 9 decimals,
    converting to base units and back succeeds and yields a float within
    10^-4 of the amount; the value printed with four fraction digits is
    within 10^-4 of the amount as well. *)
Theorem round_trip_small_amounts m e unit k :
  unit_exponent unit k -> 0 <= m -> (F2Q m e <= 100000000000)%Q ->
  exists m' e',
    round_trip (Fin m e) unit k = Ok (Fin m' e') /\
    (Qabs (F2Q m' e' - F2Q m e) <= 1 # 10000)%Q /\
    (Qabs (inject_Z (round4 m' e') / 10000 - F2Q m e) <= 1 # 10000)%Q.
Proof.
  intros Hu Hm Hx.
  pose proof (F2Q_nonneg m e Hm) as HF.
  destruct (to_wei_small m e unit k Hu Hm Hx) as (n & Hw & Hn0 & Hup & Hlo).
  cbv zeta in Hup, Hlo.
  unfold round_trip. rewrite Hw. cbn [rbind display_units].
  assert (1 < 2 ^ 1023) as Hbig by (apply Z.ltb_lt; vm_compute; reflexivity).
  assert (k = 18 \/ k = 9) as Hk by (destruct Hu as [[_ ->] | [_ ->]]; auto).
  assert (0 < 10 ^ k) as Hpos by (apply Z.pow_pos_nonneg; lia).
  assert (n <= 2 * 10 ^ 11 * 10 ^ k) as Hnb.
  { rewrite Zle_Qle, !inject_Z_mult.
    assert (0 < inject_Z (10 ^ k))%Q by (rewrite <- (Zlt_Qlt 0); exact Hpos).
    assert (F2Q m e * inject_Z (10 ^ k)
            <= 100000000000 * inject_Z (10 ^ k))%Q
      by (apply Qmult_le_compat_r; lra).
    assert (1 <= inject_Z (10 ^ k))%Q
      by (rewrite <- (Zle_Qle 1); lia).
    change (inject_Z 2) with 2%Q.
    change (inject_Z (10 ^ 11)) with 100000000000%Q.
    lra. }
  destruct (py_truediv_spec n (10 ^ k)) as (m' & e' & Hq & Herr & Hs);
    [exact Hpos | rewrite Z.abs_eq by lia; nia |].
  exists m', e'. split; [exact Hq|].
  pose proof (Qdiv_mul n (10 ^ k) Hpos) as Hy.
  set (y := (inject_Z n / inject_Z (10 ^ k))%Q) in *.
  assert (0 <= inject_Z n)%Q as Hn0' by (rewrite <- (Zle_Qle 0); exact Hn0).
  destruct (round4_spec m' e' (Hs Hn0)) as [_ Hr4].
  change (inject_Z (round4 m' e') / 10000)%Q
    with (inject_Z (round4 m' e') * (1 # 10000))%Q in *.
  apply Qabs_Qle_condition in Hr4.
  pose proof pow2_m1075 as Hsmall.
  rewrite pow2_m53 in Herr.
  assert (0 <= y)%Q as Hy0.
  { apply Qnot_lt_le. intros Hc.
    assert (0 < inject_Z (10 ^ k))%Q by (rewrite <- (Zlt_Qlt 0); exact Hpos).
    assert (y * inject_Z (10 ^ k) < 0 * inject_Z (10 ^ k))%Q
      by (apply Qmult_lt_compat_r; assumption).
    lra. }
  rewrite (Qabs_pos y Hy0) in Herr.
  apply Qabs_Qle_condition in Herr.
  destruct Hk as [-> | ->].
  - change (inject_Z (10 ^ 18)) with (1000000000000000000 # 1)%Q in *.
    split; apply Qabs_Qle_condition; split; lra.
  - change (inject_Z (10 ^ 9)) with (1000000000 # 1)%Q in *.
    split; apply Qabs_Qle_condition; split; lra.
Qed.

Lemma round_trip_small_amounts_witness :
  exists m' e',
    round_trip (Fin 5764607523034235 (-59)) "ether" 18 = Ok (Fin m' e') /\
    (Qabs (F2Q m' e' - F2Q 5764607523034235 (-59)) <= 1 # 10000)%Q /\
    (Qabs (inject_Z (round4 m' e') / 10000 - F2Q 5764607523034235 (-59))
       <= 1 # 10000)%Q.
Proof.
  apply round_trip_small_amounts.
  - left. split; reflexivity.
  - lia.
  - vm_compute. discriminate.
Defined.

(* ================================================================== *)
(** ** Where the sell amount is the exact floor *)

Lemma fround_pos_eq x :
  (0 < x)%Q -> (x < pow2 1023)%Q ->
  fround x = Fin (fst (round_pos x)) (snd (round_pos x)).
Proof.
  intros Hx Hb. unfold fround.
  destruct (Qcompare_spec x 0) as [He | Hlt | Hgt]; [lra | lra |].
  destruct (round_pos x) as [m e] eqn:Hr.
  rewrite (round_pos_no_overflow x m e Hx Hb Hr). reflexivity.
Qed.

(** An integer below 2^53 is a binary64: rounding leaves it unchanged. *)
Lemma round_pos_exact x q :
  (x == inject_Z q)%Q -> 0 < q < 2 ^ 53 ->
  (F2Q (fst (round_pos x)) (snd (round_pos x)) == inject_Z q)%Q.
Proof.
  intros Hxq Hq.
  assert (0 < inject_Z q)%Q as Hq' by (rewrite <- (Zlt_Qlt 0); lia).
  assert (0 < x)%Q as Hx by lra.
  destruct (ilog2_spec _ Hx) as [Hlo _].
  assert (ilog2 x < 53) as Hk.
  { apply pow2_lt_inv. apply Qle_lt_trans with x; [exact Hlo|].
    rewrite Hxq, pow2_inject by lia. rewrite <- Zlt_Qlt. lia. }
  unfold round_pos. cbn [fst snd].
  set (e := Z.max (ilog2 x - 52) (-1074)).
  assert (-1074 <= e <= 0) as He by (unfold e; lia).
  set (y := (x * pow2 (- e))%Q).
  assert (y == inject_Z (q * 2 ^ (- e)))%Q as Hy
    by (unfold y; rewrite Hxq, inject_Z_mult, pow2_inject by lia;
        reflexivity).
  assert (rne y = q * 2 ^ (- e)) as Hr.
  { apply Z.le_antisymm; [apply rne_le | apply rne_ge]; rewrite Hy;
      apply Qle_refl. }
  rewrite Hr. unfold F2Q.
  rewrite inject_Z_mult, <- pow2_inject by lia.
  rewrite <- Qmult_assoc, pow2_opp. ring.
Qed.

(** While [balance * percentage] stays below 2^53, the float quotient
    truncates to the integer floor. *)
Lemma sell_amount_exact_below_2_53 b p :
  0 <= b * p < 2 ^ 53 -> sell_amount_of (VInt b) p = Ok (b * p / 100).
Proof.
  intros Ha. unfold sell_amount_of.
  set (a := b * p) in *.
  destruct (Z.eq_dec a 0) as [-> | Hne]; [vm_compute; reflexivity|].
  assert (1 < 2 ^ 1023) as Hbig by (apply Z.ltb_lt; vm_compute; reflexivity).
  destruct (py_truediv_spec a 100) as (m & e & Hq & Herr & Hs);
    [lia | rewrite Z.abs_eq by lia; nia |].
  rewrite Hq. cbn [rbind py_int]. f_equal.
  destruct (trunc_spec m e (Hs ltac:(lia))) as (_ & Hlo & Hhi).
  pose proof (Qdiv_mul a 100 ltac:(lia)) as Hx.
  set (x := (inject_Z a / inject_Z 100)%Q) in *.
  change (inject_Z 100) with 100%Q in Hx.
  pose proof (Z.div_mod a 100 ltac:(lia)) as Hdm.
  pose proof (Z.mod_pos_bound a 100 ltac:(lia)) as Hmod.
  set (q := a / 100) in *. set (r := a mod 100) in *.
  assert (inject_Z a == 100 * inject_Z q + inject_Z r)%Q as Ha'.
  { rewrite Hdm at 1. rewrite inject_Z_plus, inject_Z_mult. reflexivity. }
  pose proof (inject_Z_le 0 r ltac:(lia)) as Hr0.
  pose proof (inject_Z_le r 99 ltac:(lia)) as Hr99.
  pose proof (inject_Z_le 1 a ltac:(lia)) as Ha1.
  pose proof (inject_Z_le a 9007199254740991 ltac:(lia)) as Ha2.
  change (inject_Z 0) with 0%Q in Hr0. change (inject_Z 99) with 99%Q in Hr99.
  change (inject_Z 1) with 1%Q in Ha1.
  change (inject_Z 9007199254740991) with 9007199254740991%Q in Ha2.
  assert (0 <= x)%Q as Hx0 by lra.
  rewrite (Qabs_pos x Hx0), pow2_m53 in Herr. pose proof pow2_m1075.
  apply Qabs_Qle_condition in Herr.
  assert (inject_Z (trunc m e) < inject_Z (q + 1))%Q as Hup
    by (rewrite inject_Z_plus; change (inject_Z 1) with 1%Q; lra).
  rewrite <- Zlt_Qlt in Hup.
  assert (inject_Z (q - 1) < inject_Z (trunc m e))%Q as Hdown.
  { unfold Z.sub. rewrite inject_Z_plus. change (inject_Z (- (1))) with (-1)%Q.
    destruct (Z.eq_dec r 0) as [Hr | Hr].
    - (* the quotient is an integer below 2^53: the division is exact *)
      assert (0 < q < 2 ^ 53) as Hqr by lia.
      assert (x == inject_Z q)%Q as Hxq
        by (rewrite Hr in Ha'; change (inject_Z 0) with 0%Q in Ha'; lra).
      assert (0 < x)%Q as Hxp by lra.
      assert (x < pow2 1023)%Q as Hxb.
      { apply Qlt_trans with (inject_Z (2 ^ 53)).
        - rewrite Hxq. rewrite <- Zlt_Qlt. lia.
        - vm_compute. reflexivity. }
      unfold py_truediv in Hq. cbn [Z.eqb] in Hq. fold x in Hq.
      rewrite (fround_pos_eq x Hxp Hxb) in Hq.
      assert (fst (round_pos x) = m /\ snd (round_pos x) = e) as [Em Ee]
        by (split; congruence).
      pose proof (round_pos_exact x q Hxq Hqr) as Hex.
      rewrite Em, Ee in Hex. lra.
    - pose proof (inject_Z_le 1 r ltac:(lia)) as Hr1.
      change (inject_Z 1) with 1%Q in Hr1. lra. }
  rewrite <- Zlt_Qlt in Hdown. lia.
Qed.

(* ================================================================== *)
(** ** The generated hexadecimal strings *)

(** X1.  [_fast_hex(n_bytes)], for [n_bytes >= 1], returns "0x" followed by
    [format(r, "x").rjust(2 * n_bytes, "0")] for the number [r] drawn: a
    string of exactly [2 + 2 * n_bytes] characters whose part after "0x" is
    made of lower-case hexadecimal digits.  It consumes one draw and writes
    nothing to the log.  For [n_bytes = 0] the result is "0x0", and a
    negative [n_bytes] raises [ValueError] with the world untouched. *)
Theorem fast_hex_shape (n_bytes : Z) (w : World) :
  (1 <= n_bytes ->
   let r := nth_draw w 0 mod 2 ^ (n_bytes * 8) in
   let width := Z.to_nat (n_bytes * 2) in
   _fast_hex n_bytes w =
     (Ok ("0x" ++ rjust width "0" (format_x r))%string,
      mkWorld (rng w) (S (rng_next w)) (clock w) (clock_next w) (calls w)) /\
   String.length (rjust width "0" (format_x r)) = width /\
   Z.of_nat width = 2 * n_bytes /\
   string_forallb is_lower_hex (rjust width "0" (format_x r)) = true) /\
  (n_bytes = 0 -> fst (_fast_hex n_bytes w) = Ok "0x0"%string) /\
  (n_bytes < 0 -> _fast_hex n_bytes w = (Raise ValueError, w)).
Proof.
  split; [|split].
  - intros Hn r width.
    assert (0 <= r < 16 ^ Z.of_nat width) as Hr.
    { unfold width. rewrite pow16_pow2 by lia.
      apply Z.mod_pos_bound. apply Z.pow_pos_nonneg; lia. }
    rewrite (format_x_rjust width r ltac:(unfold width; lia) Hr).
    split; [|split; [apply hex_fixed_length |
                     split; [unfold width; lia | apply hex_fixed_lower]]].
    destruct w as [rg n c cn l].
    rewrite (fast_hex_run n_bytes rg n c cn l Hn). reflexivity.
  - intros ->. destruct w as [rg n c cn l].
    unfold _fast_hex.
    rewrite (bind_ok _ _ _ _ _
               (getrandbits_run (0 * 8) _ _ _ _ _ ltac:(lia))).
    cbv beta. change (2 ^ (0 * 8)) with 1. rewrite Z.mod_1_r. reflexivity.
  - intros Hn. unfold _fast_hex.
    apply bind_raise. apply getrandbits_negative. lia.
Qed.

Lemma fast_hex_shape_witness :
  fst (_fast_hex 8 (world_of [4660] [])) =
    Ok ("0x" ++ rjust 16 "0" (format_x 4660))%string.
Proof.
  destruct (fast_hex_shape 8 (world_of [4660] [])) as [H _].
  destruct (H ltac:(lia)) as [Hrun _].
  rewrite Hrun. reflexivity.
Defined.

(** X2.  The account address made when the module is loaded is "0x"
    followed by exactly forty lower-case hexadecimal digits: the same
    string [_fast_hex(20)] makes from the same draw. *)
Theorem account_address_shape (w : World) :
  DummyAccount_address w = _fast_hex 20 w /\
  exists digits,
    fst (DummyAccount_address w) = Ok ("0x" ++ digits)%string /\
    String.length digits = 40%nat /\
    string_forallb is_lower_hex digits = true.
Proof.
  assert (0 <= nth_draw w 0 mod 2 ^ 160 < 16 ^ Z.of_nat 40) as Hr.
  { change (16 ^ Z.of_nat 40) with (2 ^ 160).
    apply Z.mod_pos_bound. apply Z.pow_pos_nonneg; lia. }
  pose proof (format_x_rjust 40 _ ltac:(lia) Hr) as Hfmt.
  assert (DummyAccount_address w =
          (Ok ("0x" ++ hex_fixed 40 (nth_draw w 0 mod 2 ^ 160))%string,
           mkWorld (rng w) (S (rng_next w)) (clock w) (clock_next w)
             (calls w))) as Hrun.
  { destruct w as [rg n c cn l].
    unfold DummyAccount_address.
    rewrite (bind_ok _ _ _ _ _ (getrandbits_run 160 _ _ _ _ _ ltac:(lia))).
    cbv beta.
    unfold ret, nth_draw in *. cbn [rng rng_next Nat.add] in *.
    rewrite Hfmt. reflexivity. }
  split.
  - rewrite Hrun. destruct w as [rg n c cn l].
    rewrite (fast_hex_run 20 rg n c cn l ltac:(lia)). reflexivity.
  - exists (hex_fixed 40 (nth_draw w 0 mod 2 ^ 160)).
    rewrite Hrun. split; [reflexivity|].
    split; [apply hex_fixed_length | apply hex_fixed_lower].
Qed.

Lemma byte_of_Z_to_N v :
  0 <= v < 256 -> Z.of_N (Byte.to_N (byte_of_Z v)) = v.
Proof.
  intros Hv. unfold byte_of_Z.
  rewrite (Byte.to_of_N _
             (eq_sym (byte_of_ascii_via_N (ascii_of_N (Z.to_N v))))).
  rewrite N_ascii_embedding by lia. lia.
Qed.

(** [b.hex()] gives back the digits [bytes.fromhex] read. *)
Lemma bytes_hex_be_bytes n z : bytes_hex (be_bytes n z) = hex_fixed (2 * n) z.
Proof.
  induction n as [|n IH]; [reflexivity|].
  replace (2 * S n)%nat with (S (S (2 * n))) by lia.
  cbn [be_bytes bytes_hex hex_fixed]. cbv zeta.
  rewrite byte_of_Z_to_N by (apply Z.mod_pos_bound; lia).
  rewrite IH. f_equal; [|f_equal]; f_equal.
  - replace (Z.of_nat (S (2 * n))) with (Z.of_nat (2 * n) + 1) by lia.
    replace (256 ^ Z.of_nat n) with (16 ^ Z.of_nat (2 * n)).
    2:{ replace (Z.of_nat (2 * n)) with (2 * Z.of_nat n) by lia.
        rewrite Z.pow_mul_r by lia. reflexivity. }
    rewrite Z.pow_add_r by lia. change (16 ^ 1) with 16.
    assert (0 < 16 ^ Z.of_nat (2 * n)) as Hp by (apply Z.pow_pos_nonneg; lia).
    rewrite <- Z.div_div by lia.
    set (q := z / 16 ^ Z.of_nat (2 * n)).
    change 256 with (16 * 16). rewrite Z.rem_mul_r by lia.
    pose proof (Z.mod_pos_bound q 16 ltac:(lia)).
    pose proof (Z.mod_pos_bound (q / 16) 16 ltac:(lia)).
    replace (q mod 16 + 16 * ((q / 16) mod 16))
      with ((q / 16) mod 16 * 16 + q mod 16) by lia.
    rewrite Z.div_add_l by lia. rewrite (Z.div_small (q mod 16)) by lia.
    rewrite Z.add_0_r. reflexivity.
  - replace (256 ^ Z.of_nat n) with (16 ^ Z.of_nat (2 * n)).
    2:{ replace (Z.of_nat (2 * n)) with (2 * Z.of_nat n) by lia.
        rewrite Z.pow_mul_r by lia. reflexivity. }
    set (q := z / 16 ^ Z.of_nat (2 * n)).
    change 256 with (16 * 16). rewrite Z.rem_mul_r by lia.
    rewrite (Z.mul_comm 16), Z.mod_add by lia.
    rewrite Z.mod_mod by lia. reflexivity.
Qed.

(** X3.  The hash a submission returns, rendered by [to_hex], is the very
    string [_fast_hex(8)] generated: [bytes.fromhex] followed by [hex()]
    loses nothing.  The hash has eight bytes, and a submission never
    fails. *)
Theorem tx_hash_hex_round_trip (raw : list byte) (w : World) :
  exists h hx w1 w2,
    _fast_hex 8 w = (Ok hx, w1) /\
    send_raw_transaction raw w = (Ok h, w2) /\
    to_hex h = hx /\
    List.length h = 8%nat /\
    new_calls (send_raw_transaction raw) w = [EvSendRawTransaction raw h].
Proof.
  destruct w as [rg n c cn l].
  exists (tx_hash_of (rg n)), ("0x" ++ hex_fixed 16 (rg n mod 2 ^ 64))%string,
    (mkWorld rg (S n) c cn l),
    (mkWorld rg (S n) c cn
       (l ++ [EvSendRawTransaction raw (tx_hash_of (rg n))])).
  split; [apply (fast_hex_run 8); lia|].
  split; [apply send_raw_transaction_run|].
  split; [|split; [reflexivity|]].
  - unfold to_hex, tx_hash_of. rewrite (bytes_hex_be_bytes 8). reflexivity.
  - unfold new_calls. rewrite send_raw_transaction_run.
    cbn [snd calls]. apply skipn_length_app.
Qed.

(* ================================================================== *)
(** ** Negation, truncation and the sign of amounts *)

Lemma Qopp_involutive_eq (x : Q) : (- - x)%Q = x.
Proof. destruct x as [n d]. unfold Qopp. cbn. rewrite Z.opp_involutive. reflexivity. Qed.

(** Rounding commutes with negation. *)
Lemma fround_opp x : fround (- x) = fneg (fround x).
Proof.
  unfold fround.
  destruct (Qcompare_spec x 0) as [He | Hlt | Hgt];
    destruct (Qcompare_spec (- x) 0) as [He' | Hlt' | Hgt']; try lra.
  - reflexivity.
  - destruct (round_pos (- x)) as [m e].
    destruct (overflows m e); cbn [fneg negb];
      rewrite ?Z.opp_involutive; reflexivity.
  - rewrite Qopp_involutive_eq.
    destruct (round_pos x) as [m e].
    destruct (overflows m e); reflexivity.
Qed.

Lemma trunc_opp m e : trunc (- m) e = - trunc m e.
Proof.
  unfold trunc. destruct (Z.leb_spec 0 e) as [He | He].
  - ring.
  - apply Z.quot_opp_l.
    assert (0 < 2 ^ (- e)) by (apply Z.pow_pos_nonneg; lia).
    lia.
Qed.

Lemma py_int_fneg f : py_int (fneg f) = rmap Z.opp (py_int f).
Proof. destruct f as [m e | s |]; cbn; [rewrite trunc_opp|..]; reflexivity. Qed.

Lemma F2Q_opp_mul m e (y : Q) : (F2Q (- m) e * y)%Q = (- (F2Q m e * y))%Q.
Proof.
  unfold F2Q. destruct (pow2 e) as [pn pd]. destruct y as [yn yd].
  unfold Qmult, Qopp, inject_Z. cbn [Qnum Qden]. f_equal. ring.
Qed.

Lemma fmul_fneg x m e :
  m <> 0 -> fmul (fneg x) (Fin m e) = fneg (fmul x (Fin m e)).
Proof.
  intros Hm. destruct x as [mx ex | s |]; cbn [fneg fmul].
  - rewrite F2Q_opp_mul. apply fround_opp.
  - destruct (Z.eqb_spec m 0) as [-> | _]; [lia|].
    destruct s, (m <? 0); reflexivity.
  - reflexivity.
Qed.

Lemma float_of_int_ether : float_of_int (10 ^ 18) = Ok (Fin 7812500000000000 7).
Proof. vm_compute. reflexivity. Qed.

Lemma float_of_int_gwei : float_of_int (10 ^ 9) = Ok (Fin 8388608000000000 (-23)).
Proof. vm_compute. reflexivity. Qed.

(** X4.  [_to_wei] does not reject negative amounts: for every float and
    every unit, the base units of [-x] are the negated base units of [x],
    and [-x] fails exactly when [x] fails, with the same exception. *)
Theorem to_wei_negated (x : float) (unit : string) :
  _to_wei (fneg x) unit = rmap Z.opp (_to_wei x unit).
Proof.
  unfold _to_wei, fmul_int.
  destruct (String.eqb unit "ether").
  - rewrite float_of_int_ether. cbn [rbind].
    rewrite fmul_fneg by lia. apply py_int_fneg.
  - destruct (String.eqb unit "gwei").
    + rewrite float_of_int_gwei. cbn [rbind].
      rewrite fmul_fneg by lia. apply py_int_fneg.
    + apply py_int_fneg.
Qed.

(** X5.  [_to_wei] fails on the floats that are not finite, whatever the
    unit: [ValueError] for a nan, [OverflowError] for an infinity. *)
Theorem to_wei_not_finite (unit : string) :
  _to_wei NaN unit = Raise ValueError /\
  (forall s, _to_wei (Inf s) unit = Raise OverflowError).
Proof.
  unfold _to_wei, fmul_int.
  destruct (String.eqb unit "ether");
    [rewrite float_of_int_ether
    | destruct (String.eqb unit "gwei"); [rewrite float_of_int_gwei|]];
    split; try reflexivity; intros []; reflexivity.
Qed.

Lemma Qdiv_opp_100 a :
  (inject_Z (- a) / inject_Z 100)%Q = (- (inject_Z a / inject_Z 100))%Q.
Proof.
  unfold Qdiv, Qmult, Qopp, Qinv, inject_Z. cbn [Qnum Qden]. f_equal. ring.
Qed.

Lemma py_truediv_opp_100 a :
  py_truediv (- a) 100 = rmap fneg (py_truediv a 100).
Proof.
  unfold py_truediv. cbn [Z.eqb].
  rewrite Qdiv_opp_100, fround_opp.
  destruct (fround (inject_Z a / inject_Z 100)); reflexivity.
Qed.

(** X6.  While the product [balance * percentage] is below 2^53 in
    magnitude, the sell amount is that product divided by 100 and truncated
    toward zero: the floor for a non-negative product (0 for percentage
    0); for a negative product the negated floor of its magnitude, which
    is never positive; and 0 while the magnitude is below 100. *)
Theorem sell_amount_truncates b p :
  Z.abs (b * p) < 2 ^ 53 ->
  sell_amount_of (VInt b) p = Ok (Z.quot (b * p) 100) /\
  (0 <= b * p -> sell_amount_of (VInt b) p = Ok (b * p / 100)) /\
  (b * p < 0 ->
   sell_amount_of (VInt b) p = Ok (- (- (b * p) / 100)) /\
   - (- (b * p) / 100) <= 0) /\
  (Z.abs (b * p) < 100 -> sell_amount_of (VInt b) p = Ok 0).
Proof.
  intros Ha.
  assert (sell_amount_of (VInt b) p = Ok (Z.quot (b * p) 100)) as Hq.
  { destruct (Z_le_gt_dec 0 (b * p)) as [Hpos | Hneg].
    - rewrite sell_amount_exact_below_2_53 by lia.
      rewrite Z.quot_div_nonneg by lia. reflexivity.
    - pose proof (sell_amount_exact_below_2_53 (- (b * p)) 1 ltac:(lia)) as H.
      unfold sell_amount_of in *. rewrite Z.mul_1_r in H.
      replace (b * p) with (- - (b * p)) at 1 by lia.
      rewrite py_truediv_opp_100.
      destruct (py_truediv (- (b * p)) 100) as [f | x];
        cbn [rbind rmap] in *; [|discriminate H].
      rewrite py_int_fneg, H. cbn [rmap]. f_equal.
      rewrite <- Z.quot_div_nonneg by lia.
      rewrite Z.quot_opp_l by lia. lia. }
  split; [exact Hq|]. split; [|split].
  - intros Hpos. rewrite Hq, Z.quot_div_nonneg by lia. reflexivity.
  - intros Hneg. split.
    + rewrite Hq. f_equal.
      rewrite <- (Z.quot_div_nonneg (- (b * p)) 100) by lia.
      rewrite Z.quot_opp_l by lia. lia.
    + pose proof (Z.div_pos (- (b * p)) 100 ltac:(lia) ltac:(lia)). lia.
  - intros Hsmall. rewrite Hq. f_equal.
    apply Z.quot_small_iff; [lia|]. lia.
Qed.

Lemma sell_amount_truncates_witness :
  sell_amount_of (VInt 200) (-75) = Ok (-150) /\
  sell_amount_of (VInt 1) (-50) = Ok 0.
Proof.
  assert (Z.abs (200 * -75) < 2 ^ 53) as H1
    by (apply Z.ltb_lt; vm_compute; reflexivity).
  assert (Z.abs (1 * -50) < 2 ^ 53) as H2
    by (apply Z.ltb_lt; vm_compute; reflexivity).
  split.
  - destruct (sell_amount_truncates 200 (-75) H1) as (_ & _ & Hn & _).
    destruct (Hn ltac:(lia)) as [E _]. rewrite E. reflexivity.
  - destruct (sell_amount_truncates 1 (-50) H2) as (_ & _ & _ & Hz).
    apply Hz. cbn. lia.
Defined.

(** X7.  For a balance of at most 10^18 and a percentage in [0, 100] the
    sell amount exists, is not negative, lies within 113 base units of
    [balance * percentage / 100], and exceeds the balance by at most 111
    base units. *)
Theorem sell_amount_overshoot_bounded b p :
  1 <= b <= 10 ^ 18 -> 0 <= p <= 100 ->
  exists v,
    sell_amount_of (VInt b) p = Ok v /\
    0 <= v <= b + 111 /\
    (Qabs (inject_Z v - inject_Z (b * p) / inject_Z 100) <= 113)%Q.
Proof.
  intros Hb Hp. unfold sell_amount_of.
  assert (0 <= b * p <= 100 * b) as Hbp by nia.
  assert (1 < 2 ^ 1023) as Hbig by (apply Z.ltb_lt; vm_compute; reflexivity).
  destruct (py_truediv_spec (b * p) 100) as (m & e & Hq & Herr & Hs);
    [lia | rewrite Z.abs_eq by lia; nia |].
  rewrite Hq. cbn [rbind py_int].
  destruct (trunc_spec m e (Hs ltac:(lia))) as (Hv0 & Hlo & Hhi).
  exists (trunc m e). split; [reflexivity|].
  pose proof (Qdiv_mul (b * p) 100 ltac:(lia)) as Hx.
  set (x := (inject_Z (b * p) / inject_Z 100)%Q) in *.
  change (inject_Z 100) with 100%Q in Hx.
  pose proof (inject_Z_le 0 (b * p) ltac:(lia)) as H0.
  pose proof (inject_Z_le (b * p) (100 * b) ltac:(lia)) as H1.
  pose proof (inject_Z_le b (10 ^ 18) ltac:(lia)) as H2.
  rewrite (inject_Z_mult 100 b) in H1.
  change (inject_Z 0) with 0%Q in H0. change (inject_Z 100) with 100%Q in H1.
  change (inject_Z (10 ^ 18)) with (1000000000000000000 # 1)%Q in H2.
  assert (0 <= x)%Q as Hx0 by lra.
  rewrite (Qabs_pos x Hx0), pow2_m53 in Herr. pose proof pow2_m1075.
  apply Qabs_Qle_condition in Herr.
  split.
  - split; [exact Hv0|].
    assert (inject_Z (trunc m e) < inject_Z (b + 112))%Q as Hup
      by (rewrite inject_Z_plus; change (inject_Z 112) with 112%Q; lra).
    rewrite <- Zlt_Qlt in Hup. lia.
  - apply Qabs_Qle_condition. split; lra.
Qed.

Lemma sell_amount_overshoot_bounded_witness :
  exists v,
    sell_amount_of (VInt (10 ^ 18 - 1)) 100 = Ok v /\
    0 <= v <= 10 ^ 18 - 1 + 111 /\
    (Qabs (inject_Z v - inject_Z ((10 ^ 18 - 1) * 100) / inject_Z 100)
       <= 113)%Q.
Proof.
  apply sell_amount_overshoot_bounded; lia.
Defined.

(** X8.  For a non-negative amount of at most 10^11 units, [_to_wei] with
    unit "ether" (k = 18) or "gwei" (k = 9) succeeds, and its result is not
    negative and differs from [amount * 10^k] by at most one part in 2^53
    of that product plus 1.000001 base units. *)
Theorem to_wei_accuracy m e unit k :
  unit_exponent unit k -> 0 <= m -> (F2Q m e <= 100000000000)%Q ->
  exists n,
    _to_wei (Fin m e) unit = Ok n /\ 0 <= n /\
    (Qabs (inject_Z n - F2Q m e * inject_Z (10 ^ k))
       <= F2Q m e * inject_Z (10 ^ k) * (1 # 9007199254740992)
          + (1000001 # 1000000))%Q.
Proof.
  intros Hu Hm Hx.
  destruct (to_wei_small m e unit k Hu Hm Hx) as (n & Hw & Hn & Hup & Hlo).
  exists n. split; [exact Hw|]. split; [exact Hn|].
  cbv zeta in Hup, Hlo.
  set (X := (F2Q m e * inject_Z (10 ^ k))%Q) in *.
  apply Qabs_Qle_condition. split; lra.
Qed.

Lemma to_wei_accuracy_witness :
  exists n,
    _to_wei one_hundredth "ether" = Ok n /\ 0 <= n /\
    (Qabs (inject_Z n - F2Q 5764607523034235 (-59) * inject_Z (10 ^ 18))
       <= F2Q 5764607523034235 (-59) * inject_Z (10 ^ 18)
            * (1 # 9007199254740992)
          + (1000001 # 1000000))%Q.
Proof.
  apply to_wei_accuracy.
  - left. split; reflexivity.
  - lia.
  - vm_compute. discriminate.
Defined.

(* ================================================================== *)
(** ** Buying *)

(** X9.  When [swap_buy] fails, the exception is [ValueError] or
    [OverflowError], raised by the conversion of the amount: by then the
    block has been read and the router function called, but no transaction
    count has been read and nothing has been built, signed or submitted.
    A nan amount fails with [ValueError], an infinite one with
    [OverflowError]. *)
Theorem swap_buy_failure ADDRESS tok w :
  (forall amt x,
      fst (swap_buy ADDRESS tok amt w) = Raise x ->
      (x = ValueError \/ x = OverflowError) /\
      new_calls (swap_buy ADDRESS tok amt) w = buy_trace_head ADDRESS tok w /\
      rng_next (snd (swap_buy ADDRESS tok amt w)) = rng_next w /\
      built_txs (new_calls (swap_buy ADDRESS tok amt) w) = [] /\
      signed_txs (new_calls (swap_buy ADDRESS tok amt) w) = [] /\
      submissions (new_calls (swap_buy ADDRESS tok amt) w) = []) /\
  fst (swap_buy ADDRESS tok NaN w) = Raise ValueError /\
  (forall s, fst (swap_buy ADDRESS tok (Inf s) w) = Raise OverflowError).
Proof.
  split; [|split].
  - intros amt x. rewrite new_calls_swap_buy, swap_buy_run.
    destruct (_to_wei amt "ether") as [value | y] eqn:Hw;
      cbn [fst snd rng_next]; intros Hx; [discriminate Hx|].
    injection Hx as ->.
    split; [|repeat split].
    change (_to_wei amt "ether")
      with (rbind (fmul_int amt (10 ^ 18)) py_int) in Hw.
    unfold fmul_int in Hw. rewrite float_of_int_ether in Hw.
    cbn [rbind] in Hw.
    destruct (fmul amt (Fin 7812500000000000 7)) as [m e | s |];
      cbn [py_int] in Hw; [discriminate Hw | right | left]; congruence.
  - rewrite swap_buy_run.
    assert (_to_wei NaN "ether" = Raise ValueError) as ->
      by (vm_compute; reflexivity).
    reflexivity.
  - intros s. rewrite swap_buy_run.
    assert (_to_wei (Inf s) "ether" = Raise OverflowError) as ->
      by (destruct s; vm_compute; reflexivity).
    reflexivity.
Qed.

Lemma swap_buy_failure_witness :
  new_calls (swap_buy "0xabc" "0xdead" NaN) collide_world =
    buy_trace_head "0xabc" "0xdead" collide_world.
Proof.
  destruct (swap_buy_failure "0xabc" "0xdead" collide_world) as (H & Hn & _).
  destruct (H NaN ValueError Hn) as (_ & Ht & _). exact Ht.
Defined.

(** X10.  When the amount converts to [value] base units, [swap_buy]
    returns "Buy Tx Sent: 0x" followed by the sixteen hexadecimal digits of
    the hash, and builds, signs and submits exactly one transaction: from
    the account, to "0xDummy", carrying [value], with gas 250000, gas price
    5000000000 and the transaction count just read as nonce; the swap's
    proceeds go to the account. *)
Theorem swap_buy_success ADDRESS tok amt w value :
  _to_wei amt "ether" = Ok value ->
  let l := new_calls (swap_buy ADDRESS tok amt) w in
  let tx := buy_tx ADDRESS value (nth_draw w 0 mod 21) in
  fst (swap_buy ADDRESS tok amt w) =
    Ok ("Buy Tx Sent: 0x" ++ hex_fixed 16 (nth_draw w 1 mod 2 ^ 64))%string /\
  built_txs l = [tx] /\ signed_txs l = [tx] /\
  submissions l = [dummy_raw] /\
  recipients l = [ADDRESS] /\
  dict_get tx "value" VNone = VInt value /\
  dict_get tx "from" VNone = VStr ADDRESS /\
  dict_get tx "to" VNone = VStr "0xDummy".
Proof.
  intros Hw l tx. subst l tx.
  rewrite new_calls_swap_buy, swap_buy_run, Hw.
  split; [|repeat split].
  cbn [fst]. unfold to_hex, tx_hash_of.
  rewrite (bytes_hex_be_bytes 8). reflexivity.
Qed.

Lemma swap_buy_success_witness :
  fst (swap_buy "0xabc" "0xdead" one_hundredth two_ticks_world) =
    Ok "Buy Tx Sent: 0x00000000deadbeef"%string /\
  built_txs (new_calls (swap_buy "0xabc" "0xdead" one_hundredth)
               two_ticks_world) =
    [buy_tx "0xabc" 10000000000000000 5].
Proof.
  assert (_to_wei one_hundredth "ether" = Ok 10000000000000000) as Hw
    by (vm_compute; reflexivity).
  destruct (swap_buy_success "0xabc" "0xdead" one_hundredth two_ticks_world
              _ Hw) as (H1 & H2 & _).
  split; [rewrite H1 | rewrite H2]; reflexivity.
Defined.

(* ================================================================== *)
(** ** Selling *)

Lemma fround_not_nan x : fround x <> NaN.
Proof.
  unfold fround.
  destruct (x ?= 0)%Q; [discriminate | |];
    destruct (round_pos _) as [m e]; destruct (overflows m e); discriminate.
Qed.

Lemma sell_amount_raise b p x :
  sell_amount_of (VInt b) p = Raise x -> x = OverflowError.
Proof.
  unfold sell_amount_of, py_truediv. cbn [Z.eqb].
  pose proof (fround_not_nan (inject_Z (b * p) / inject_Z 100)) as Hn.
  destruct (fround (inject_Z (b * p) / inject_Z 100)) as [m e | s |];
    cbn [rbind py_int]; intros H; [discriminate H | | contradiction].
  congruence.
Qed.

(** X11.  [swap_sell] can only fail with [OverflowError], only for a
    percentage beyond 10^280 in magnitude, and only while computing the
    sell amount: the balance and the decimals have been read, and nothing
    has been approved, built, signed or submitted. *)
Theorem swap_sell_failure ADDRESS tok p w x :
  fst (swap_sell ADDRESS tok p w) = Raise x ->
  let l := new_calls (swap_sell ADDRESS tok p) w in
  x = OverflowError /\ 10 ^ 280 < Z.abs p /\
  l = [EvCall "balanceOf" (VInt (balance_read w));
       EvCall "decimals" (VInt 18)] /\
  approvals l = [] /\ built_txs l = [] /\ signed_txs l = [] /\
  submissions l = [].
Proof.
  intros Hx l. subst l.
  rewrite new_calls_swap_sell. rewrite swap_sell_run in Hx.
  destruct (sell_amount_of (VInt (balance_read w)) p) as [v | y] eqn:Hs;
    cbn [fst] in Hx; [discriminate Hx|].
  injection Hx as ->.
  split; [exact (sell_amount_raise _ _ _ Hs)|].
  split; [|repeat split].
  destruct (Z_le_gt_dec (Z.abs p) (10 ^ 280)) as [Hle | Hgt]; [|lia].
  destruct (sell_amount_total _ p (balance_read_range w) Hle) as [v Hv].
  congruence.
Qed.

Lemma swap_sell_failure_witness :
  new_calls (swap_sell "0xabc" "0xdead" (10 ^ 400)) collide_world =
    [EvCall "balanceOf" (VInt 200); EvCall "decimals" (VInt 18)].
Proof.
  assert (fst (swap_sell "0xabc" "0xdead" (10 ^ 400) collide_world)
          = Raise OverflowError) as H by (vm_compute; reflexivity).
  destruct (swap_sell_failure "0xabc" "0xdead" (10 ^ 400) collide_world _ H)
    as (_ & _ & Hl & _).
  rewrite Hl. reflexivity.
Defined.

(** X12.  [swap_sell] approves what it swaps: every allowance it asks for
    names the router as spender and the very amount passed to the swap,
    and the swap's proceeds go to the account.  Within the float range
    (percentage at most 10^280 in magnitude) it builds, signs and submits
    exactly two transactions, the approve then the swap, both from the
    account and both with value 0, the approve recording the router and
    the sell amount. *)
Theorem swap_sell_approves_what_it_swaps ADDRESS tok p w :
  let l := new_calls (swap_sell ADDRESS tok p) w in
  approvals l = map (fun v => (ROUTER_ADDRESS, v)) (amounts_in l) /\
  recipients l = map (fun _ => ADDRESS) (amounts_in l) /\
  (Z.abs p <= 10 ^ 280 ->
   exists v,
     let atx := approve_tx ADDRESS v (nth_draw w 1 mod 21) in
     let stx := sell_tx ADDRESS (nth_draw w 3 mod 21) in
     sell_amount_of (VInt (balance_read w)) p = Ok v /\
     amounts_in l = [v] /\
     built_txs l = [atx; stx] /\ signed_txs l = [atx; stx] /\
     submissions l = [dummy_raw; dummy_raw] /\
     dict_get atx "approved_to" VNone = VStr ROUTER_ADDRESS /\
     dict_get atx "approved_value" VNone = VInt v /\
     dict_get atx "value" VNone = VInt 0 /\
     dict_get stx "value" VNone = VInt 0 /\
     dict_get atx "from" VNone = VStr ADDRESS /\
     dict_get stx "from" VNone = VStr ADDRESS).
Proof.
  intros l. subst l. rewrite new_calls_swap_sell.
  split; [|split].
  - destruct (sell_amount_of (VInt (balance_read w)) p); reflexivity.
  - destruct (sell_amount_of (VInt (balance_read w)) p); reflexivity.
  - intros Hp.
    destruct (sell_amount_total _ p (balance_read_range w) Hp) as [v Hv].
    exists v. rewrite Hv. cbv zeta. repeat split.
Qed.

Lemma swap_sell_approves_what_it_swaps_witness :
  approvals (new_calls (swap_sell "0xabc" "0xdead" 50) collide_world) =
    [(ROUTER_ADDRESS, 100)] /\
  amounts_in (new_calls (swap_sell "0xabc" "0xdead" 50) collide_world) =
    [100].
Proof.
  destruct (swap_sell_approves_what_it_swaps "0xabc" "0xdead" 50
              collide_world) as (Ha & _ & H).
  destruct H as (v & Hv & Hin & _).
  - apply Z.leb_le. vm_compute. reflexivity.
  - cbv zeta in Ha. rewrite Ha, Hin.
    assert (v = 100) as -> by (vm_compute in Hv; congruence).
    split; reflexivity.
Defined.

(** X13.  The two ends of the percentage range.  With percentage 0 the
    sell is not skipped: an allowance of 0 is approved and a swap of amount
    0 is submitted, whatever the balance.  With percentage 100 the amount
    approved and swapped is exactly the balance read, as long as one
    hundred times the balance is below 2^53. *)
Theorem swap_sell_edge_percentages ADDRESS tok w :
  (new_calls (swap_sell ADDRESS tok 0) w = sell_trace ADDRESS tok w 0 /\
   approvals (new_calls (swap_sell ADDRESS tok 0) w) = [(ROUTER_ADDRESS, 0)] /\
   submissions (new_calls (swap_sell ADDRESS tok 0) w) =
     [dummy_raw; dummy_raw]) /\
  (balance_read w * 100 < 2 ^ 53 ->
   amounts_in (new_calls (swap_sell ADDRESS tok 100) w) = [balance_read w] /\
   approvals (new_calls (swap_sell ADDRESS tok 100) w) =
     [(ROUTER_ADDRESS, balance_read w)]).
Proof.
  pose proof (balance_read_range w) as Hb.
  split.
  - rewrite new_calls_swap_sell.
    rewrite (sell_amount_exact_below_2_53 (balance_read w) 0)
      by (rewrite Z.mul_0_r; split; [lia | apply Z.pow_pos_nonneg; lia]).
    rewrite Z.mul_0_r. change (0 / 100) with 0. repeat split.
  - intros Hsmall. rewrite new_calls_swap_sell.
    rewrite (sell_amount_exact_below_2_53 (balance_read w) 100) by lia.
    rewrite Z.div_mul by lia. split; reflexivity.
Qed.

Lemma swap_sell_edge_percentages_witness :
  amounts_in (new_calls (swap_sell "0xabc" "0xdead" 100) collide_world) =
    [200].
Proof.
  destruct (swap_sell_edge_percentages "0xabc" "0xdead" collide_world)
    as [_ H].
  destruct H as [H _]; [apply Z.ltb_lt; vm_compute; reflexivity|].
  rewrite H. reflexivity.
Defined.

(* ================================================================== *)
(** ** Reading the balance *)

(** X14.  [check_token_balance] always returns.  It only reads: the log
    gains the [balanceOf], [decimals] and [symbol] calls, in this order,
    and nothing is built, signed or submitted; one random draw is consumed
    and the clock is not read.  Neither the token address nor the account
    changes the result.  The amount shown is between 0.0000 and 1.0000. *)
Theorem check_token_balance_reads_only ADDRESS tok w :
  exists m e s,
    display_units (VInt (balance_read w)) (VInt 18) = Ok (Fin m e) /\
    check_token_balance ADDRESS tok w =
      (Ok s,
       mkWorld (rng w) (S (rng_next w)) (clock w) (clock_next w)
         (calls w ++ [EvCall "balanceOf" (VInt (balance_read w));
                      EvCall "decimals" (VInt 18);
                      EvCall "symbol" (VStr "TOK")])) /\
    ((round4 m e < 10000 /\
      s = (("0." ++ frac4 (round4 m e)) ++ " TOK")%string) \/
     (round4 m e = 10000 /\ s = "1.0000 TOK"%string)) /\
    (forall ADDRESS' tok',
        check_token_balance ADDRESS' tok' w =
        check_token_balance ADDRESS tok w).
Proof.
  destruct (display_units_spec _ (balance_read_range w))
    as (m & e & Hd & Hm & Herr).
  destruct (round4_spec m e Hm) as [Hr0 Hr].
  assert (round4 m e <= 10000) as Hr1.
  { unfold round4. apply rne_lt.
    rewrite (Qabs_pos _ (F2Q_nonneg m e Hm)).
    pose proof (balance_read_range w) as Hb.
    pose proof (Qdiv_mul (balance_read w) (10 ^ 18) ltac:(lia)) as Hx.
    set (x := (inject_Z (balance_read w) / inject_Z (10 ^ 18))%Q) in *.
    pose proof (inject_Z_le (balance_read w) (10 ^ 18) ltac:(lia)) as Hle.
    change (inject_Z (10 ^ 18)) with (1000000000000000000 # 1)%Q in *.
    change (inject_Z 10000) with 10000%Q.
    apply Qabs_Qle_condition in Herr. lra. }
  assert (forall A t,
            check_token_balance A t w =
            (Ok (format_4f (Fin m e) ++ " TOK")%string,
             mkWorld (rng w) (S (rng_next w)) (clock w) (clock_next w)
               (calls w ++ [EvCall "balanceOf" (VInt (balance_read w));
                            EvCall "decimals" (VInt 18);
                            EvCall "symbol" (VStr "TOK")]))) as Hrun
    by (intros A t; rewrite check_token_balance_run, Hd; reflexivity).
  exists m, e, (format_4f (Fin m e) ++ " TOK")%string.
  split; [exact Hd|]. split; [apply Hrun|]. split.
  - cbn [format_4f]. cbv zeta.
    destruct (Z.ltb_spec m 0) as [Hneg | _]; [lia|].
    destruct (Z.eq_dec (round4 m e) 10000) as [E | NE].
    + right. split; [exact E|]. rewrite E. reflexivity.
    + left. split; [lia|].
      rewrite Z.div_small, Z.mod_small by lia. reflexivity.
  - intros A' t'. rewrite !Hrun. reflexivity.
Qed.

(* ================================================================== *)
(** ** Building a transaction *)

Lemma dict_get_set d k v k' dflt :
  dict_get (dict_set d k v) k' dflt =
  if String.eqb k' k then v else dict_get d k' dflt.
Proof.
  induction d as [|[k0 v0] d IH]; [reflexivity|].
  cbn [dict_set]. destruct (String.eqb_spec k k0) as [-> | Hne].
  - cbn [dict_get]. destruct (String.eqb k' k0); reflexivity.
  - cbn [dict_get]. rewrite IH.
    destruct (String.eqb_spec k' k0) as [-> | Hne'];
      [|reflexivity].
    destruct (String.eqb_spec k0 k) as [E | _]; [congruence | reflexivity].
Qed.

Lemma dict_find_app a b k :
  dict_find (a ++ b) k =
  match dict_find a k with
  | Some v => Some v
  | None => dict_find b k
  end.
Proof.
  induction a as [|[k0 v0] a IH]; [reflexivity|].
  cbn [app dict_find]. destruct (String.eqb k k0); [reflexivity | exact IH].
Qed.

(** After [d.update(u)] a key holds its last value in [u], or else what it
    held in [d]. *)
Lemma dict_get_update u :
  forall d k dflt,
    dict_get (dict_update d u) k dflt =
    match dict_find (rev u) k with
    | Some v => v
    | None => dict_get d k dflt
    end.
Proof.
  unfold dict_update.
  induction u as [|[k0 v0] u IH]; intros d k dflt; [reflexivity|].
  cbn [fold_left fst snd rev]. rewrite IH, dict_find_app.
  destruct (dict_find (rev u) k); [reflexivity|].
  cbn [dict_find]. rewrite dict_get_set.
  destruct (String.eqb k k0); reflexivity.
Qed.

(** X15.  [build_transaction] never fails and logs the transaction it
    returns.  In that transaction a key of the function's template holds
    the template's value; otherwise "from", "gas", "gasPrice" and "nonce"
    hold what the caller's dict holds (None when missing), "to" defaults
    to "0xDummy", "value" defaults to 0 and "data" is "<dummy_data>"
    whatever the caller passed; every other key of the caller's dict is
    dropped. *)
Theorem build_transaction_fields (f : DummyFunction) (txdict : dict) w :
  exists tx,
    build_transaction f txdict w =
      (Ok tx,
       mkWorld (rng w) (rng_next w) (clock w) (clock_next w)
         (calls w ++ [EvBuildTransaction (name f) tx])) /\
    forall k dflt,
      dict_get tx k dflt =
      match dict_find (rev (match build_template f with
                            | Some t => t
                            | None => []
                            end)) k with
      | Some v => v
      | None =>
          if String.eqb k "from" then dict_get txdict "from" VNone
          else if String.eqb k "to" then dict_get txdict "to" (VStr "0xDummy")
          else if String.eqb k "value" then dict_get txdict "value" (VInt 0)
          else if String.eqb k "gas" then dict_get txdict "gas" VNone
          else if String.eqb k "gasPrice" then dict_get txdict "gasPrice" VNone
          else if String.eqb k "nonce" then dict_get txdict "nonce" VNone
          else if String.eqb k "data" then VStr "<dummy_data>"
          else dflt
      end.
Proof.
  unfold build_transaction. cbv zeta.
  eexists. split; [destruct w; reflexivity|].
  intros k dflt.
  destruct (build_template f) as [t|].
  - rewrite dict_get_update. reflexivity.
  - reflexivity.
Qed.

(* ================================================================== *)
(** ** The demo *)

Lemma to_wei_one_hundredth_ether :
  _to_wei one_hundredth "ether" = Ok 10000000000000000.
Proof. vm_compute. reflexivity. Qed.

Lemma new_calls_of_run {A : Type} (c : M A) w r rg n ck cn l :
  c w = (r, mkWorld rg n ck cn (calls w ++ l)) -> new_calls c w = l.
Proof.
  intros H. unfold new_calls. rewrite H. cbn [snd calls].
  apply skipn_length_app.
Qed.

(** X16.  The demo never raises, whatever is drawn: the balance check, the
    buy of 0.01 and the sell of 50 percent run one after the other, each
    from the world the previous one left, and seven lines are printed.
    Three transactions are submitted: the buy carrying 10^16 base units,
    then the approve and the swap carrying no value.  Eight random draws
    and two clock readings are consumed. *)
Theorem main_completes ADDRESS w :
  let tok := "0x000000000000000000000000000000000000dead"%string in
  exists s1 s2 s3 w1 w2 w3,
    check_token_balance ADDRESS tok w = (Ok s1, w1) /\
    swap_buy ADDRESS tok one_hundredth w1 = (Ok s2, w2) /\
    swap_sell ADDRESS tok 50 w2 = (Ok s3, w3) /\
    main ADDRESS w =
      (Ok ["Checking token balance..."; "Balance: " ++ s1;
           nl ++ "Simulating buy..."; s2;
           nl ++ "Simulating sell..."; s3;
           nl ++ "Demo run complete!"]%string, w3) /\
    submissions (new_calls (main ADDRESS) w) =
      [dummy_raw; dummy_raw; dummy_raw] /\
    map (fun tx => dict_get tx "value" VNone)
      (built_txs (new_calls (main ADDRESS) w)) =
      [VInt 10000000000000000; VInt 0; VInt 0] /\
    rng_next w3 = (8 + rng_next w)%nat /\
    clock_next w3 = (2 + clock_next w)%nat.
Proof.
  intros tok.
  destruct (display_units_spec _ (balance_read_range w))
    as (m & e & Hd & _ & _).
  pose proof (check_token_balance_run ADDRESS tok w) as H1.
  rewrite Hd in H1. cbv zeta in H1.
  set (w1 := mkWorld (rng w) (S (rng_next w)) (clock w) (clock_next w)
               (calls w ++ [EvCall "balanceOf" (VInt (balance_read w));
                            EvCall "decimals" (VInt 18);
                            EvCall "symbol" (VStr "TOK")])) in *.
  pose proof (swap_buy_run ADDRESS tok one_hundredth w1) as H2.
  rewrite to_wei_one_hundredth_ether in H2.
  set (w2 := mkWorld (rng w1) (2 + rng_next w1) (clock w1) (S (clock_next w1))
               (calls w1 ++ buy_trace_head ADDRESS tok w1
                         ++ buy_trace_tail ADDRESS w1 10000000000000000))
    in *.
  destruct (swap_sell_in_range ADDRESS tok 50 w2
              (percent_small 50 ltac:(lia))) as (v & _ & H3 & _).
  set (w3 := mkWorld (rng w2) (5 + rng_next w2) (clock w2) (S (clock_next w2))
               (calls w2 ++ sell_trace ADDRESS tok w2 v)) in *.
  assert (main ADDRESS w =
          (Ok ["Checking token balance...";
               "Balance: " ++ (format_4f (Fin m e) ++ " TOK");
               nl ++ "Simulating buy...";
               "Buy Tx Sent: " ++ to_hex (tx_hash_of (nth_draw w1 1));
               nl ++ "Simulating sell...";
               "Sell Tx Sent: " ++ to_hex (tx_hash_of (nth_draw w2 4));
               nl ++ "Demo run complete!"]%string, w3)) as Hmain.
  { unfold main. cbv zeta. fold tok.
    rewrite (bind_ok _ _ _ _ _ H1). cbv beta.
    rewrite (bind_ok _ _ _ _ _ H2). cbv beta.
    rewrite (bind_ok _ _ _ _ _ H3). cbv beta.
    reflexivity. }
  assert (new_calls (main ADDRESS) w =
          [EvCall "balanceOf" (VInt (balance_read w));
           EvCall "decimals" (VInt 18); EvCall "symbol" (VStr "TOK")]
            ++ (buy_trace_head ADDRESS tok w1
                  ++ buy_trace_tail ADDRESS w1 10000000000000000)
            ++ sell_trace ADDRESS tok w2 v) as Hlog.
  { apply new_calls_of_run
      with (r := Ok ["Checking token balance...";
               "Balance: " ++ (format_4f (Fin m e) ++ " TOK");
               nl ++ "Simulating buy...";
               "Buy Tx Sent: " ++ to_hex (tx_hash_of (nth_draw w1 1));
               nl ++ "Simulating sell...";
               "Sell Tx Sent: " ++ to_hex (tx_hash_of (nth_draw w2 4));
               nl ++ "Demo run complete!"]%string)
           (rg := rng w2) (n := (5 + rng_next w2)%nat) (ck := clock w2)
           (cn := S (clock_next w2)).
    rewrite Hmain. unfold w3, w2, w1. cbn [calls].
    rewrite <- !app_assoc. reflexivity. }
  eexists _, _, _, w1, w2, w3.
  split; [exact H1|]. split; [exact H2|]. split; [exact H3|].
  split; [exact Hmain|].
  rewrite Hlog. repeat split.
Qed.
